(** * The wallet connection state machine of midnight-reactive-starter

    A shallow embedding of [ReactiveMidnightWalletProvider]
    (src/context/ReactiveMidnightWalletContext.tsx) and of the earlier
    variant of the same component that the repository also carries.

    The component state ([useState] cells) and the timer references
    ([useRef] cells) form one record; every callback of the component is a
    computation in the state monad over that record.  The wallet extension
    is external: what it answers to the calls awaited by one callback is an
    argument of that callback ([Replies]).  A callback is taken as one
    step: the asynchronous calls it awaits are settled by its [Replies]
    and no other callback runs in between. *)

From Stdlib Require Import Ascii String ZArith List Bool Lia DecimalString.
From ExtLib Require Import Structures.Monad Structures.MonadState.
From ExtLib Require Import Data.Monads.StateMonad.
Import ListNotations.
Import MonadNotation.

Local Open Scope string_scope.
Local Open Scope monad_scope.

Set Implicit Arguments.

(** ** Values thrown by the connector *)

(** [err.code] is [number | string | undefined]; numbers are the integer
    codes of the connector API. *)
Inductive ErrorCode : Type :=
| CodeUndefined
| CodeNumber (n : Z)
| CodeString (s : string).

(** A thrown value, through the properties the catch blocks read:
    [err instanceof Error], [err.message], [err.reason], [err.code]. *)
Record Thrown : Type := {
  instanceofError : bool;
  message : option string;
  reason : option string;
  code : ErrorCode
}.

(** How an awaited call settles. *)
Inductive Promise (A : Type) : Type :=
| Resolved (a : A)
| Rejected (err : Thrown).

Arguments Resolved {A} a.
Arguments Rejected {A} err.

(** ** JavaScript helpers *)

(** [a || b] on a possibly missing string: the empty string, [null] and
    [undefined] are falsy. *)
Definition orString (a : option string) (b : string) : string :=
  match a with
  | Some (String c rest) => String c rest
  | _ => b
  end.

(** [!!s] for [s : string | null]. *)
Definition truthy (s : option string) : bool :=
  match s with
  | Some (String _ _) => true
  | _ => false
  end.

(** [code ? ... : ...]: zero, the empty string and [undefined] are falsy. *)
Definition codeTruthy (c : ErrorCode) : bool :=
  match c with
  | CodeUndefined => false
  | CodeNumber n => negb (n =? 0)%Z
  | CodeString s => truthy (Some s)
  end.

(** The template literal [${code}]. *)
Definition codeToString (c : ErrorCode) : string :=
  match c with
  | CodeUndefined => "undefined"
  | CodeNumber n => NilZero.string_of_int (Z.to_int n)
  | CodeString s => s
  end.

(** [s.includes(sub)]. *)
Fixpoint includes (sub s : string) : bool :=
  String.prefix sub s ||
  match s with
  | EmptyString => false
  | String _ rest => includes sub rest
  end.

(** [code === -3 || String(msg).includes('enable() first')] *)
Definition isApprovalError (c : ErrorCode) (msg : string) : bool :=
  match c with
  | CodeNumber n => (n =? -3)%Z
  | _ => false
  end || includes "enable() first" msg.

(** [`Connection failed: ${msg}${code ? ` (Code: ${code})` : ''}`] *)
Definition connectionFailed (msg : string) (c : ErrorCode) : string :=
  "Connection failed: " ++ msg ++
  (if codeTruthy c then " (Code: " ++ codeToString c ++ ")" else "").

(** ** The connector *)

(** The injected connector object; [name] is the only property read. *)
Record DAppConnectorAPI : Type := { name : string }.

(** [window.midnight], when the page has one, maps wallet names to
    connectors. *)
Record Window : Type := {
  midnight : option (string -> option DAppConnectorAPI)
}.

(** [getConnector]: [None] without a window (server side), without
    [window.midnight] or without an entry for the target wallet. *)
Definition getConnector (window : option Window) (targetWalletName : string)
  : option DAppConnectorAPI :=
  match window with
  | Some w =>
      match midnight w with
      | Some registry => registry targetWalletName
      | None => None
      end
  | None => None
  end.

Definition STATUS_POLLING_INTERVAL_MS : Z := 3000.
Definition STATE_POLLING_INTERVAL_MS : Z := 5000.
Definition APPROVAL_POLLING_INTERVAL_MS : Z := 500.
Definition APPROVAL_POLLING_TIMEOUT_MS : Z := 15000.

(** [const maxAttempts = APPROVAL_POLLING_TIMEOUT_MS /
    APPROVAL_POLLING_INTERVAL_MS]; the quotient is exact. *)
Definition maxAttempts : Z :=
  (APPROVAL_POLLING_TIMEOUT_MS / APPROVAL_POLLING_INTERVAL_MS)%Z.

Arguments maxAttempts : simpl never.
Arguments connectionFailed : simpl never.

(** What the wallet extension answers to the calls one callback awaits:
    [connector.isEnabled()], [connector.enable()], [enabledApi.state()]
    and [connector.serviceUriConfig()].  No callback awaits the same call
    twice.  The three types are those of
    @midnight-ntwrk/dapp-connector-api. *)
Record Replies (DAppConnectorWalletAPI ServiceUriConfig
    DAppConnectorWalletState : Type) : Type := {
  isEnabled : Promise bool;
  enable : Promise DAppConnectorWalletAPI;
  state : Promise DAppConnectorWalletState;
  serviceUriConfig : Promise ServiceUriConfig
}.

(** * The component with approval polling
    (src/context/ReactiveMidnightWalletContext.tsx) *)

Module Reactive.

Section Provider.

(** The types of @midnight-ntwrk/dapp-connector-api that the component
    stores without looking inside; of a wallet state only [address] is
    read. *)
Variables DAppConnectorWalletAPI ServiceUriConfig DAppConnectorWalletState : Type.
Variable address : DAppConnectorWalletState -> string.

(** The provider's prop; ['mnLace'] unless the application passes one. *)
Variable targetWalletName : string.

(** What the state-poll interval callback closes over: [walletApi] and
    [walletState] of the render whose effect armed it. *)
Record StatePollClosure : Type := {
  currentWalletApi : DAppConnectorWalletAPI;
  cachedWalletState : option DAppConnectorWalletState
}.

(** The [useState] cells, the three [useRef] cells and the [attempts]
    counter of the approval interval ([let attempts = 0] in
    [_startApprovalPolling], shared by the ticks of that interval).  An
    armed interval is [Some] of what its callback closes over. *)
Record ProviderState : Type := {
  walletApi : option DAppConnectorWalletAPI;
  serviceUris : option ServiceUriConfig;
  walletState : option DAppConnectorWalletState;
  isConnecting : bool;
  isCheckingStatus : bool;
  error : option string;
  infoMessage : option string;
  walletName : option string;
  statusPollIntervalRef : option unit;
  statePollIntervalRef : option StatePollClosure;
  approvalPollIntervalRef : option DAppConnectorAPI;
  attempts : Z
}.

(** [const isConnected = !!walletApi] *)
Definition isConnected (s : ProviderState) : bool :=
  match walletApi s with Some _ => true | None => false end.

(** The state at mount: the [useState] and [useRef] initial values. *)
Definition initialState : ProviderState :=
  {| walletApi := None; serviceUris := None; walletState := None;
     isConnecting := false; isCheckingStatus := true;
     error := None; infoMessage := None; walletName := None;
     statusPollIntervalRef := None; statePollIntervalRef := None;
     approvalPollIntervalRef := None; attempts := 0 |}.

Definition Replies : Type :=
  Replies DAppConnectorWalletAPI ServiceUriConfig DAppConnectorWalletState.

Definition M : Type -> Type := StateMonad.state ProviderState.

Definition update (f : ProviderState -> ProviderState) : M unit :=
  s <- get ;; put (f s).

(** *** State setters *)

Definition setWalletApi (v : option DAppConnectorWalletAPI) : M unit :=
  update (fun s =>
    {| walletApi := v; serviceUris := serviceUris s;
       walletState := walletState s; isConnecting := isConnecting s;
       isCheckingStatus := isCheckingStatus s; error := error s;
       infoMessage := infoMessage s; walletName := walletName s;
       statusPollIntervalRef := statusPollIntervalRef s;
       statePollIntervalRef := statePollIntervalRef s;
       approvalPollIntervalRef := approvalPollIntervalRef s;
       attempts := attempts s |}).

Definition setServiceUris (v : option ServiceUriConfig) : M unit :=
  update (fun s =>
    {| walletApi := walletApi s; serviceUris := v;
       walletState := walletState s; isConnecting := isConnecting s;
       isCheckingStatus := isCheckingStatus s; error := error s;
       infoMessage := infoMessage s; walletName := walletName s;
       statusPollIntervalRef := statusPollIntervalRef s;
       statePollIntervalRef := statePollIntervalRef s;
       approvalPollIntervalRef := approvalPollIntervalRef s;
       attempts := attempts s |}).

Definition setWalletState (v : option DAppConnectorWalletState) : M unit :=
  update (fun s =>
    {| walletApi := walletApi s; serviceUris := serviceUris s;
       walletState := v; isConnecting := isConnecting s;
       isCheckingStatus := isCheckingStatus s; error := error s;
       infoMessage := infoMessage s; walletName := walletName s;
       statusPollIntervalRef := statusPollIntervalRef s;
       statePollIntervalRef := statePollIntervalRef s;
       approvalPollIntervalRef := approvalPollIntervalRef s;
       attempts := attempts s |}).

Definition setIsConnecting (v : bool) : M unit :=
  update (fun s =>
    {| walletApi := walletApi s; serviceUris := serviceUris s;
       walletState := walletState s; isConnecting := v;
       isCheckingStatus := isCheckingStatus s; error := error s;
       infoMessage := infoMessage s; walletName := walletName s;
       statusPollIntervalRef := statusPollIntervalRef s;
       statePollIntervalRef := statePollIntervalRef s;
       approvalPollIntervalRef := approvalPollIntervalRef s;
       attempts := attempts s |}).

Definition setIsCheckingStatus (v : bool) : M unit :=
  update (fun s =>
    {| walletApi := walletApi s; serviceUris := serviceUris s;
       walletState := walletState s; isConnecting := isConnecting s;
       isCheckingStatus := v; error := error s;
       infoMessage := infoMessage s; walletName := walletName s;
       statusPollIntervalRef := statusPollIntervalRef s;
       statePollIntervalRef := statePollIntervalRef s;
       approvalPollIntervalRef := approvalPollIntervalRef s;
       attempts := attempts s |}).

Definition setError (v : option string) : M unit :=
  update (fun s =>
    {| walletApi := walletApi s; serviceUris := serviceUris s;
       walletState := walletState s; isConnecting := isConnecting s;
       isCheckingStatus := isCheckingStatus s; error := v;
       infoMessage := infoMessage s; walletName := walletName s;
       statusPollIntervalRef := statusPollIntervalRef s;
       statePollIntervalRef := statePollIntervalRef s;
       approvalPollIntervalRef := approvalPollIntervalRef s;
       attempts := attempts s |}).

Definition setInfoMessage (v : option string) : M unit :=
  update (fun s =>
    {| walletApi := walletApi s; serviceUris := serviceUris s;
       walletState := walletState s; isConnecting := isConnecting s;
       isCheckingStatus := isCheckingStatus s; error := error s;
       infoMessage := v; walletName := walletName s;
       statusPollIntervalRef := statusPollIntervalRef s;
       statePollIntervalRef := statePollIntervalRef s;
       approvalPollIntervalRef := approvalPollIntervalRef s;
       attempts := attempts s |}).

Definition setWalletName (v : option string) : M unit :=
  update (fun s =>
    {| walletApi := walletApi s; serviceUris := serviceUris s;
       walletState := walletState s; isConnecting := isConnecting s;
       isCheckingStatus := isCheckingStatus s; error := error s;
       infoMessage := infoMessage s; walletName := v;
       statusPollIntervalRef := statusPollIntervalRef s;
       statePollIntervalRef := statePollIntervalRef s;
       approvalPollIntervalRef := approvalPollIntervalRef s;
       attempts := attempts s |}).

(** *** Timer references *)

(** [statusPollIntervalRef.current = ...] *)
Definition setStatusPollIntervalRef (v : option unit) : M unit :=
  update (fun s =>
    {| walletApi := walletApi s; serviceUris := serviceUris s;
       walletState := walletState s; isConnecting := isConnecting s;
       isCheckingStatus := isCheckingStatus s; error := error s;
       infoMessage := infoMessage s; walletName := walletName s;
       statusPollIntervalRef := v;
       statePollIntervalRef := statePollIntervalRef s;
       approvalPollIntervalRef := approvalPollIntervalRef s;
       attempts := attempts s |}).

(** [statePollIntervalRef.current = ...] *)
Definition setStatePollIntervalRef (v : option StatePollClosure) : M unit :=
  update (fun s =>
    {| walletApi := walletApi s; serviceUris := serviceUris s;
       walletState := walletState s; isConnecting := isConnecting s;
       isCheckingStatus := isCheckingStatus s; error := error s;
       infoMessage := infoMessage s; walletName := walletName s;
       statusPollIntervalRef := statusPollIntervalRef s;
       statePollIntervalRef := v;
       approvalPollIntervalRef := approvalPollIntervalRef s;
       attempts := attempts s |}).

(** [approvalPollIntervalRef.current = ...] *)
Definition setApprovalPollIntervalRef (v : option DAppConnectorAPI) : M unit :=
  update (fun s =>
    {| walletApi := walletApi s; serviceUris := serviceUris s;
       walletState := walletState s; isConnecting := isConnecting s;
       isCheckingStatus := isCheckingStatus s; error := error s;
       infoMessage := infoMessage s; walletName := walletName s;
       statusPollIntervalRef := statusPollIntervalRef s;
       statePollIntervalRef := statePollIntervalRef s;
       approvalPollIntervalRef := v;
       attempts := attempts s |}).

(** [attempts = ...], the counter of the approval interval. *)
Definition setAttempts (n : Z) : M unit :=
  update (fun s =>
    {| walletApi := walletApi s; serviceUris := serviceUris s;
       walletState := walletState s; isConnecting := isConnecting s;
       isCheckingStatus := isCheckingStatus s; error := error s;
       infoMessage := infoMessage s; walletName := walletName s;
       statusPollIntervalRef := statusPollIntervalRef s;
       statePollIntervalRef := statePollIntervalRef s;
       approvalPollIntervalRef := approvalPollIntervalRef s;
       attempts := n |}).

(** [clearAllIntervals]: clears the three intervals and nulls the refs. *)
Definition clearAllIntervals : M unit :=
  setStatusPollIntervalRef None ;;
  setStatePollIntervalRef None ;;
  setApprovalPollIntervalRef None.

(** *** Fetching the details *)

(** [_fetchDetails]: [Promise.all] of [enabledApi.state()] and
    [connector.serviceUriConfig()]; the [catch] runs when either rejects. *)
Definition _fetchDetails (r : Replies) : M bool :=
  match state r, serviceUriConfig r with
  | Resolved fetchedState, Resolved fetchedUris =>
      setWalletState (Some fetchedState) ;;
      setServiceUris (Some fetchedUris) ;;
      ret true
  | _, _ =>
      setError (Some "Connected, but failed to fetch wallet details.") ;;
      setWalletState None ;;
      setServiceUris None ;;
      ret false
  end.

(** Whether both awaited fetches of [_fetchDetails] resolve. *)
Definition detailsResolve (r : Replies) : bool :=
  match state r, serviceUriConfig r with
  | Resolved _, Resolved _ => true
  | _, _ => false
  end.

(** [msg] of the catch block of [_establishConnection]:
    [(err instanceof Error ? err.message : '') || apiError?.reason ||
     'Unknown connection error'] *)
Definition errorMsg (err : Thrown) : string :=
  orString (if instanceofError err then message err else Some "")
    (orString (reason err) "Unknown connection error").

(** *** Establishing the connection *)

(** [_establishConnection(connector, isInitialCheck)] *)
Definition _establishConnection (connector : DAppConnectorAPI)
    (isInitialCheck : bool) (r : Replies) : M bool :=
  match enable r with
  | Resolved enabledApi =>
      setWalletApi (Some enabledApi) ;;
      setWalletName (Some (name connector)) ;;
      detailsFetched <- _fetchDetails r ;;
      if detailsFetched then
        setError None ;;
        setInfoMessage None ;;
        ret true
      else
        ret false
  | Rejected err =>
      let code := code err in
      let msg := errorMsg err in
      setWalletApi None ;; setServiceUris None ;;
      setWalletState None ;; setWalletName None ;;
      let isApprovalError := isApprovalError code msg in
      if isApprovalError && negb isInitialCheck then
        ret false
      else if negb isInitialCheck then
        setError (Some (connectionFailed msg code)) ;;
        ret false
      else
        ret false
  end.

(** *** Approval polling *)

(** [_startApprovalPolling(connector)]: arms the approval interval with a
    fresh [attempts] counter. *)
Definition _startApprovalPolling (connector : DAppConnectorAPI) : M unit :=
  clearAllIntervals ;;
  setInfoMessage (Some ("Connection prompt likely appeared in " ++
    name connector ++ ". Please approve it. Checking status...")) ;;
  setAttempts 0 ;;
  setApprovalPollIntervalRef (Some connector).

(** The callback of the approval interval, for the connector it closes
    over. *)
Definition approvalPollCallback (connector : DAppConnectorAPI) (r : Replies)
  : M unit :=
  s <- get ;;
  let attempts := (attempts s + 1)%Z in
  setAttempts attempts ;;
  if (maxAttempts <? attempts)%Z then
    clearAllIntervals ;;
    setError (Some "Connection timed out. Did you approve the request in the wallet?") ;;
    setInfoMessage None ;;
    setIsConnecting false
  else
    match isEnabled r with
    | Resolved true =>
        clearAllIntervals ;;
        setInfoMessage (Some "Approval detected. Finalizing connection...") ;;
        success <- _establishConnection connector false r ;;
        setInfoMessage None ;;
        setIsConnecting false
    | Resolved false => ret tt
    | Rejected pollErr =>
        clearAllIntervals ;;
        setError (Some "An error occurred while checking wallet approval status.") ;;
        setInfoMessage None ;;
        setIsConnecting false
    end.

(** One period of the approval interval: the callback runs when the
    interval is armed; a cleared interval does not fire. *)
Definition approvalPollTick (r : Replies) : M unit :=
  s <- get ;;
  match approvalPollIntervalRef s with
  | Some connector => approvalPollCallback connector r
  | None => ret tt
  end.

(** Successive periods of the approval interval, one reply per period. *)
Fixpoint approvalPolling (rs : list Replies) : M unit :=
  match rs with
  | [] => ret tt
  | r :: rest => approvalPollTick r ;; approvalPolling rest
  end.

(** *** The public actions *)

(** [connectWallet].  [isConnecting], [isConnected] and [error] are the
    bindings of the render that created the callback: the state the
    callback starts from.  The test [!success && !error] after the await
    reads that same binding of [error], not the cell that
    [_establishConnection] has just written. *)
Definition connectWallet (window : option Window) (r : Replies) : M unit :=
  rendered <- get ;;
  if isConnecting rendered || isConnected rendered then ret tt
  else
    setIsConnecting true ;;
    setError None ;;
    setInfoMessage None ;;
    clearAllIntervals ;;
    match getConnector window targetWalletName with
    | None =>
        setError (Some ("Wallet connector '" ++ targetWalletName ++ "' not found.")) ;;
        setIsConnecting false
    | Some connector =>
        success <- _establishConnection connector false r ;;
        if negb success && negb (truthy (error rendered)) then
          _startApprovalPolling connector
        else
          setIsConnecting false
    end.

(** [disconnectWallet] *)
Definition disconnectWallet : M unit :=
  clearAllIntervals ;;
  setWalletApi None ;;
  setServiceUris None ;;
  setWalletState None ;;
  setError None ;;
  setInfoMessage None ;;
  setIsConnecting false ;;
  setIsCheckingStatus false ;;
  setWalletName None.

(** *** Effects *)

(** The initial load check: the body of the first [useEffect] with its
    promise chain run to the end. *)
Definition initialLoadCheck (window : option Window) (r : Replies) : M unit :=
  setIsCheckingStatus true ;;
  match getConnector window targetWalletName with
  | Some connector =>
      match isEnabled r with
      | Resolved true =>
          _establishConnection connector true r ;;
          setIsCheckingStatus false
      | Resolved false => setIsCheckingStatus false
      | Rejected err => setIsCheckingStatus false
      end
  | None => setIsCheckingStatus false
  end.

(** The background polling effect: runs after a render whose
    [isConnected], [walletApi] or [walletState?.address] changed. *)
Definition backgroundPollingEffect : M unit :=
  clearAllIntervals ;;
  rendered <- get ;;
  match walletApi rendered with
  | Some api =>
      setIsCheckingStatus true ;;
      setStatusPollIntervalRef (Some tt) ;;
      setStatePollIntervalRef
        (Some {| currentWalletApi := api;
                 cachedWalletState := walletState rendered |}) ;;
      setIsCheckingStatus false
  | None => setIsCheckingStatus false
  end.

(** The cleanup of either effect. *)
Definition effectCleanup : M unit := clearAllIntervals.

(** The callback of the status interval. *)
Definition statusPollCallback (window : option Window) (r : Replies) : M unit :=
  match getConnector window targetWalletName with
  | None => disconnectWallet
  | Some connector =>
      match isEnabled r with
      | Resolved true => ret tt
      | Resolved false => disconnectWallet
      | Rejected pollError => disconnectWallet
      end
  end.

(** [newState.address !== (walletState ? walletState.address : null)] *)
Definition addressDiffers (newState : DAppConnectorWalletState)
    (cached : option DAppConnectorWalletState) : bool :=
  match cached with
  | Some ws => negb (String.eqb (address newState) (address ws))
  | None => true
  end.

(** The callback of the state interval, for the closure it was armed
    with. *)
Definition statePollCallback (c : StatePollClosure) (r : Replies) : M unit :=
  match state r with
  | Resolved newState =>
      if addressDiffers newState (cachedWalletState c) then
        setWalletState (Some newState)
      else ret tt
  | Rejected pollError => disconnectWallet
  end.

(** *** The component as a transition system *)

(** One callback of the component, run from state [s].  The interval
    callbacks run only while their interval is armed; the effects may
    run after any render. *)
Inductive step (s : ProviderState) : ProviderState -> Prop :=
| step_initialLoadCheck (window : option Window) (r : Replies) :
    step s (execState (initialLoadCheck window r) s)
| step_backgroundPollingEffect :
    step s (execState backgroundPollingEffect s)
| step_effectCleanup :
    step s (execState effectCleanup s)
| step_connectWallet (window : option Window) (r : Replies) :
    step s (execState (connectWallet window r) s)
| step_disconnectWallet :
    step s (execState disconnectWallet s)
| step_approvalPoll (connector : DAppConnectorAPI) (r : Replies) :
    approvalPollIntervalRef s = Some connector ->
    step s (execState (approvalPollCallback connector r) s)
| step_statusPoll (window : option Window) (r : Replies) :
    statusPollIntervalRef s = Some tt ->
    step s (execState (statusPollCallback window r) s)
| step_statePoll (c : StatePollClosure) (r : Replies) :
    statePollIntervalRef s = Some c ->
    step s (execState (statePollCallback c r) s).

(** The states the mounted component can be in. *)
Inductive reachable : ProviderState -> Prop :=
| reachable_mount : reachable initialState
| reachable_step (s s' : ProviderState) :
    reachable s -> step s s' -> reachable s'.

(** The approval interval is not armed together with the status or the
    state interval. *)
Definition timersExclusive (s : ProviderState) : Prop :=
  approvalPollIntervalRef s = None \/
  (statusPollIntervalRef s = None /\ statePollIntervalRef s = None).

(** All three interval refs are null. *)
Definition timersCleared (s : ProviderState) : Prop :=
  statusPollIntervalRef s = None /\
  statePollIntervalRef s = None /\
  approvalPollIntervalRef s = None.

End Provider.

Arguments initialState {DAppConnectorWalletAPI ServiceUriConfig DAppConnectorWalletState}.
Arguments clearAllIntervals {DAppConnectorWalletAPI ServiceUriConfig DAppConnectorWalletState}.
Arguments disconnectWallet {DAppConnectorWalletAPI ServiceUriConfig DAppConnectorWalletState}.
Arguments backgroundPollingEffect {DAppConnectorWalletAPI ServiceUriConfig DAppConnectorWalletState}.
Arguments effectCleanup {DAppConnectorWalletAPI ServiceUriConfig DAppConnectorWalletState}.
Arguments _startApprovalPolling {DAppConnectorWalletAPI ServiceUriConfig DAppConnectorWalletState} connector.
Arguments setWalletState {DAppConnectorWalletAPI ServiceUriConfig DAppConnectorWalletState} v.
Arguments setAttempts {DAppConnectorWalletAPI ServiceUriConfig DAppConnectorWalletState} n.

End Reactive.

(** * The earlier variant of the component, without approval polling *)

Module Legacy.

Section Provider.

Variables DAppConnectorWalletAPI ServiceUriConfig DAppConnectorWalletState : Type.
Variable targetWalletName : string.

Definition Replies : Type :=
  Replies DAppConnectorWalletAPI ServiceUriConfig DAppConnectorWalletState.

(** The [useState] cells and the two [useRef] cells; an armed interval is
    [Some tt]. *)
Record ProviderState : Type := {
  walletApi : option DAppConnectorWalletAPI;
  serviceUris : option ServiceUriConfig;
  walletState : option DAppConnectorWalletState;
  isConnecting : bool;
  isCheckingStatus : bool;
  error : option string;
  walletName : option string;
  statusPollIntervalRef : option unit;
  statePollIntervalRef : option unit
}.

(** [const isConnected = !!walletApi] *)
Definition isConnected (s : ProviderState) : bool :=
  match walletApi s with Some _ => true | None => false end.

Definition initialState : ProviderState :=
  {| walletApi := None; serviceUris := None; walletState := None;
     isConnecting := false; isCheckingStatus := true;
     error := None; walletName := None;
     statusPollIntervalRef := None; statePollIntervalRef := None |}.

Definition M : Type -> Type := StateMonad.state ProviderState.

Definition update (f : ProviderState -> ProviderState) : M unit :=
  s <- get ;; put (f s).

Definition setWalletApi (v : option DAppConnectorWalletAPI) : M unit :=
  update (fun s =>
    {| walletApi := v; serviceUris := serviceUris s;
       walletState := walletState s; isConnecting := isConnecting s;
       isCheckingStatus := isCheckingStatus s; error := error s;
       walletName := walletName s;
       statusPollIntervalRef := statusPollIntervalRef s;
       statePollIntervalRef := statePollIntervalRef s |}).

Definition setServiceUris (v : option ServiceUriConfig) : M unit :=
  update (fun s =>
    {| walletApi := walletApi s; serviceUris := v;
       walletState := walletState s; isConnecting := isConnecting s;
       isCheckingStatus := isCheckingStatus s; error := error s;
       walletName := walletName s;
       statusPollIntervalRef := statusPollIntervalRef s;
       statePollIntervalRef := statePollIntervalRef s |}).

Definition setWalletState (v : option DAppConnectorWalletState) : M unit :=
  update (fun s =>
    {| walletApi := walletApi s; serviceUris := serviceUris s;
       walletState := v; isConnecting := isConnecting s;
       isCheckingStatus := isCheckingStatus s; error := error s;
       walletName := walletName s;
       statusPollIntervalRef := statusPollIntervalRef s;
       statePollIntervalRef := statePollIntervalRef s |}).

Definition setIsConnecting (v : bool) : M unit :=
  update (fun s =>
    {| walletApi := walletApi s; serviceUris := serviceUris s;
       walletState := walletState s; isConnecting := v;
       isCheckingStatus := isCheckingStatus s; error := error s;
       walletName := walletName s;
       statusPollIntervalRef := statusPollIntervalRef s;
       statePollIntervalRef := statePollIntervalRef s |}).

Definition setIsCheckingStatus (v : bool) : M unit :=
  update (fun s =>
    {| walletApi := walletApi s; serviceUris := serviceUris s;
       walletState := walletState s; isConnecting := isConnecting s;
       isCheckingStatus := v; error := error s;
       walletName := walletName s;
       statusPollIntervalRef := statusPollIntervalRef s;
       statePollIntervalRef := statePollIntervalRef s |}).

Definition setError (v : option string) : M unit :=
  update (fun s =>
    {| walletApi := walletApi s; serviceUris := serviceUris s;
       walletState := walletState s; isConnecting := isConnecting s;
       isCheckingStatus := isCheckingStatus s; error := v;
       walletName := walletName s;
       statusPollIntervalRef := statusPollIntervalRef s;
       statePollIntervalRef := statePollIntervalRef s |}).

Definition setWalletName (v : option string) : M unit :=
  update (fun s =>
    {| walletApi := walletApi s; serviceUris := serviceUris s;
       walletState := walletState s; isConnecting := isConnecting s;
       isCheckingStatus := isCheckingStatus s; error := error s;
       walletName := v;
       statusPollIntervalRef := statusPollIntervalRef s;
       statePollIntervalRef := statePollIntervalRef s |}).

(** [msg] of the catch block: [err?.message || apiError?.reason ||
    'Unknown connection error'], without the [instanceof] test of the
    later variant. *)
Definition errorMsg (err : Thrown) : string :=
  orString (message err) (orString (reason err) "Unknown connection error").

(** The catch block of [_establishConnection]. *)
Definition establishFailed (initialCheck : bool) (err : Thrown) : M bool :=
  let code := code err in
  let msg := errorMsg err in
  (if negb initialCheck && negb (isApprovalError code msg) then
     setError (Some (connectionFailed msg code))
   else ret tt) ;;
  setWalletApi None ;; setServiceUris None ;;
  setWalletState None ;; setWalletName None ;;
  ret false.

(** [_establishConnection(connector, initialCheck)]: one [try] around
    [enable()] and the [Promise.all] of the two fetches; when both
    fetches reject, the rejection of [state()] is the one caught. *)
Definition _establishConnection (connector : DAppConnectorAPI)
    (initialCheck : bool) (r : Replies) : M bool :=
  setError None ;;
  match enable r with
  | Resolved enabledApi =>
      match state r, serviceUriConfig r with
      | Resolved fetchedState, Resolved fetchedUris =>
          setWalletApi (Some enabledApi) ;;
          setWalletName (Some (name connector)) ;;
          setWalletState (Some fetchedState) ;;
          setServiceUris (Some fetchedUris) ;;
          setError None ;;
          ret true
      | Rejected err, _ => establishFailed initialCheck err
      | Resolved _, Rejected err => establishFailed initialCheck err
      end
  | Rejected err => establishFailed initialCheck err
  end.

(** [connectWallet]; [isConnected] and [isConnecting] are the bindings of
    the render that created the callback. *)
Definition connectWallet (window : option Window) (r : Replies) : M unit :=
  rendered <- get ;;
  if isConnected rendered || isConnecting rendered then ret tt
  else
    setIsConnecting true ;;
    setError None ;;
    match getConnector window targetWalletName with
    | None =>
        setError (Some ("Wallet connector '" ++ targetWalletName ++ "' not found.")) ;;
        setIsConnecting false
    | Some connector =>
        _establishConnection connector false r ;;
        setIsConnecting false
    end.

(** The initial load check, its promise chain run to the end: the
    [catch] handles a rejected [isEnabled()]. *)
Definition initialLoadCheck (window : option Window) (r : Replies) : M unit :=
  setIsCheckingStatus true ;;
  match getConnector window targetWalletName with
  | Some connector =>
      match isEnabled r with
      | Resolved true =>
          _establishConnection connector true r ;;
          setIsCheckingStatus false
      | Resolved false => setIsCheckingStatus false
      | Rejected err =>
          setError (Some "Could not check initial wallet status.") ;;
          setIsCheckingStatus false
      end
  | None => setIsCheckingStatus false
  end.

(** *** Polling and teardown *)

(** Of a wallet state only [address] is read. *)
Variable address : DAppConnectorWalletState -> string.

Definition setStatusPollIntervalRef (v : option unit) : M unit :=
  update (fun s =>
    {| walletApi := walletApi s; serviceUris := serviceUris s;
       walletState := walletState s; isConnecting := isConnecting s;
       isCheckingStatus := isCheckingStatus s; error := error s;
       walletName := walletName s;
       statusPollIntervalRef := v;
       statePollIntervalRef := statePollIntervalRef s |}).

Definition setStatePollIntervalRef (v : option unit) : M unit :=
  update (fun s =>
    {| walletApi := walletApi s; serviceUris := serviceUris s;
       walletState := walletState s; isConnecting := isConnecting s;
       isCheckingStatus := isCheckingStatus s; error := error s;
       walletName := walletName s;
       statusPollIntervalRef := statusPollIntervalRef s;
       statePollIntervalRef := v |}).

(** [clearAllIntervals] *)
Definition clearAllIntervals : M unit :=
  setStatusPollIntervalRef None ;;
  setStatePollIntervalRef None.

(** [disconnectWallet] *)
Definition disconnectWallet : M unit :=
  clearAllIntervals ;;
  setWalletApi None ;;
  setServiceUris None ;;
  setWalletState None ;;
  setError None ;;
  setIsConnecting false ;;
  setIsCheckingStatus false ;;
  setWalletName None.

(** The polling effect: arms both intervals when connected, clears them
    otherwise.  Unlike the later variant it does not clear before it
    arms; the cleanup of the previous run has done so. *)
Definition pollingEffect : M unit :=
  rendered <- get ;;
  match walletApi rendered with
  | Some _ =>
      setStatusPollIntervalRef (Some tt) ;;
      setStatePollIntervalRef (Some tt)
  | None => clearAllIntervals
  end.

(** The cleanup of the polling effect. *)
Definition effectCleanup : M unit := clearAllIntervals.

(** The callback of the status interval. *)
Definition statusPollCallback (window : option Window) (r : Replies) : M unit :=
  match getConnector window targetWalletName with
  | None => disconnectWallet
  | Some connector =>
      match isEnabled r with
      | Resolved true => ret tt
      | Resolved false => disconnectWallet
      | Rejected pollError => disconnectWallet
      end
  end.

(** [newState.address !== walletState?.address] *)
Definition addressDiffers (newState : DAppConnectorWalletState)
    (cached : option DAppConnectorWalletState) : bool :=
  match cached with
  | Some ws => negb (String.eqb (address newState) (address ws))
  | None => true
  end.

(** The callback of the state interval; [currentWalletApi] and [cached]
    are the [walletApi] and [walletState] of the render whose effect
    armed the interval. *)
Definition statePollCallback
    (currentWalletApi : option DAppConnectorWalletAPI)
    (cached : option DAppConnectorWalletState) (r : Replies) : M unit :=
  match currentWalletApi with
  | Some _ =>
      match state r with
      | Resolved newState =>
          if addressDiffers newState cached then
            setWalletState (Some newState)
          else ret tt
      | Rejected pollError => disconnectWallet
      end
  | None => clearAllIntervals
  end.

(** *** The component as a transition system *)

(** One callback of the component, run from state [s]; an interval
    callback runs only while its interval is armed, with whatever its
    closure captured. *)
Inductive step (s : ProviderState) : ProviderState -> Prop :=
| step_initialLoadCheck (window : option Window) (r : Replies) :
    step s (execState (initialLoadCheck window r) s)
| step_pollingEffect :
    step s (execState pollingEffect s)
| step_effectCleanup :
    step s (execState effectCleanup s)
| step_connectWallet (window : option Window) (r : Replies) :
    step s (execState (connectWallet window r) s)
| step_disconnectWallet :
    step s (execState disconnectWallet s)
| step_statusPoll (window : option Window) (r : Replies) :
    statusPollIntervalRef s = Some tt ->
    step s (execState (statusPollCallback window r) s)
| step_statePoll (currentWalletApi : option DAppConnectorWalletAPI)
    (cached : option DAppConnectorWalletState) (r : Replies) :
    statePollIntervalRef s = Some tt ->
    step s (execState (statePollCallback currentWalletApi cached r) s).

(** The states the mounted component can be in. *)
Inductive reachable : ProviderState -> Prop :=
| reachable_mount : reachable initialState
| reachable_step (s s' : ProviderState) :
    reachable s -> step s s' -> reachable s'.

End Provider.

Arguments initialState {DAppConnectorWalletAPI ServiceUriConfig DAppConnectorWalletState}.

End Legacy.

(** * The navigation bar (src/components/Navbar.tsx) *)

(** What the bar computes from the context value and what its buttons
    do; layout and styling are left out. *)
Module Navbar.

(** ** String helpers of the bar *)

(** The white space [String.prototype.trim] removes, among the code
    units below 256: TAB, LF, VT, FF, CR, SP and NBSP. *)
Definition isWhiteSpace (c : Ascii.ascii) : bool :=
  let n := Ascii.nat_of_ascii c in
  ((9 <=? n) && (n <=? 13))%nat || (n =? 32)%nat || (n =? 160)%nat.

Fixpoint trimStart (s : string) : string :=
  match s with
  | EmptyString => EmptyString
  | String c rest => if isWhiteSpace c then trimStart rest else s
  end.

Fixpoint trimEnd (s : string) : string :=
  match s with
  | EmptyString => EmptyString
  | String c rest =>
      match trimEnd rest with
      | EmptyString => if isWhiteSpace c then EmptyString else String c EmptyString
      | kept => String c kept
      end
  end.

(** [s.trim()] *)
Definition trim (s : string) : string := trimEnd (trimStart s).

(** [s.split(sep)] for a one-character separator: the pieces between the
    separators, at least one piece. *)
Fixpoint split (sep : Ascii.ascii) (s : string) : list string :=
  match s with
  | EmptyString => [EmptyString]
  | String c rest =>
      if Ascii.eqb c sep then EmptyString :: split sep rest
      else
        match split sep rest with
        | piece :: pieces => String c piece :: pieces
        | [] => [String c EmptyString]
        end
  end.

(** [error.split(':')[1]?.trim() ?? error]: the text shown after
    "Error:". *)
Definition simplifiedError (error : string) : string :=
  match nth_error (split ":"%char error) 1 with
  | Some piece => trim piece
  | None => error
  end.

(** [`${a.substring(0, 6)}...${a.substring(a.length - 4)}`], or [''] for
    a missing or empty address.  [substring] clamps its bounds, and a
    negative start counts as 0. *)
Definition displayAddress (address : option string) : string :=
  match address with
  | Some (String c rest) =>
      let a := String c rest in
      substring 0 6 a ++ "..." ++
      substring (String.length a - 4) (String.length a) a
  | _ => ""
  end.

(** ** The connection indicator *)

Record Indicator : Type := {
  color : string;
  title : string;
  animation : string
}.

(** [ConnectionIndicator]: manual connecting wins over checking, which
    wins over connected. *)
Definition ConnectionIndicator (isConnected isChecking isConnectingManual : bool)
  : Indicator :=
  {| color :=
       if isConnectingManual then "#60a5fa"
       else if isChecking then "#60a5fa"
       else if isConnected then "#4ade80"
       else "#facc15";
     title :=
       if isConnectingManual then "Connecting..."
       else if isChecking then "Checking..."
       else if isConnected then "Connected"
       else "Disconnected";
     animation :=
       if isChecking || isConnectingManual
       then "pulse 1.5s infinite ease-in-out" else "none" |}.

(** ** The bar over the context of the component with approval polling *)

Section Bar.

Variables DAppConnectorWalletAPI ServiceUriConfig DAppConnectorWalletState : Type.
Variable address : DAppConnectorWalletState -> string.
Variable targetWalletName : string.

Let State : Type :=
  Reactive.ProviderState DAppConnectorWalletAPI ServiceUriConfig
    DAppConnectorWalletState.

(** The button the bar renders: the disconnect button with its label and
    tooltip, or the connect button, possibly disabled, with its label. *)
Inductive Button : Type :=
| DisconnectButton (label tooltip : string)
| ConnectButton (disabled : bool) (label : string).

(** [isConnecting || isCheckingStatus] *)
Definition isLoadingOverall (s : State) : bool :=
  Reactive.isConnecting s || Reactive.isCheckingStatus s.

(** The error text of the bar, when it renders one:
    [error && !isLoadingOverall]. *)
Definition shownError (s : State) : option string :=
  match Reactive.error s with
  | Some (String c rest) =>
      if negb (isLoadingOverall s)
      then Some (simplifiedError (String c rest))
      else None
  | _ => None
  end.

(** The indicator as the bar instantiates it. *)
Definition indicator (s : State) : Indicator :=
  ConnectionIndicator (Reactive.isConnected s)
    (Reactive.isCheckingStatus s) (Reactive.isConnecting s).

(** [isConnected && walletState ? <disconnect button> : <connect button>].
    The text of the disconnect button is [Disconnect {displayAddress}]
    followed by the space that separates it from the comment on the same
    line. *)
Definition button (s : State) : Button :=
  match Reactive.isConnected s, Reactive.walletState s with
  | true, Some ws =>
      DisconnectButton
        ("Disconnect " ++ displayAddress (Some (address ws)) ++ " ")
        ("Disconnect wallet: " ++ address ws)
  | _, _ =>
      ConnectButton
        (Reactive.isConnecting s || Reactive.isCheckingStatus s)
        (if Reactive.isConnecting s then "Connecting..."
         else if Reactive.isCheckingStatus s then "Checking..."
         else "Connect " ++
              match Reactive.walletName s with
              | Some n => n
              | None => "Wallet"
              end)
  end.

(** A click on the rendered button: [disconnectWallet] for the
    disconnect button, [handleConnect] (that is [connectWallet]) for the
    connect button; a disabled button does not fire. *)
Definition click (window : option Window)
    (r : Replies DAppConnectorWalletAPI ServiceUriConfig DAppConnectorWalletState)
  : Reactive.M DAppConnectorWalletAPI ServiceUriConfig
      DAppConnectorWalletState unit :=
  s <- get ;;
  match button s with
  | DisconnectButton _ _ => Reactive.disconnectWallet
  | ConnectButton true _ => ret tt
  | ConnectButton false _ => Reactive.connectWallet targetWalletName window r
  end.

End Bar.

End Navbar.

(** * Concrete runs *)

(** A page with the default wallet installed, and what the extension may
    answer.  Handles, URIs and wallet states are strings here; the
    address of a wallet state is the string itself. *)
Module Scenario.

Definition mnLace : DAppConnectorAPI := {| name := "mnLace" |}.

Definition window : option Window :=
  Some {| midnight := Some (fun walletName =>
            if String.eqb walletName "mnLace" then Some mnLace else None) |}.

Definition R : Type := Replies string string string.

(** [walletState.address] *)
Definition address (ws : string) : string := ws.

(** The wallet is not enabled for this page. *)
Definition notEnabled : R :=
  {| isEnabled := Resolved false; enable := Resolved "api";
     state := Resolved "addr1"; serviceUriConfig := Resolved "uris" |}.

(** Everything resolves. *)
Definition allResolve : R :=
  {| isEnabled := Resolved true; enable := Resolved "api";
     state := Resolved "addr1"; serviceUriConfig := Resolved "uris" |}.

(** The account was switched in the wallet. *)
Definition accountSwitched : R :=
  {| isEnabled := Resolved true; enable := Resolved "api";
     state := Resolved "addr2"; serviceUriConfig := Resolved "uris" |}.

Definition userRejected : Thrown :=
  {| instanceofError := true; message := Some "User rejected";
     reason := None; code := CodeNumber (-1) |}.

Definition approvalPending : Thrown :=
  {| instanceofError := true; message := Some "Please call enable() first";
     reason := None; code := CodeNumber (-3) |}.

Definition networkDown : Thrown :=
  {| instanceofError := true; message := Some "network down";
     reason := None; code := CodeUndefined |}.

(** [enable()] fails with an ordinary error. *)
Definition enableRejected : R :=
  {| isEnabled := Resolved false; enable := Rejected userRejected;
     state := Resolved "addr1"; serviceUriConfig := Resolved "uris" |}.

(** [enable()] fails with the approval-pending signal. *)
Definition enablePending : R :=
  {| isEnabled := Resolved false; enable := Rejected approvalPending;
     state := Resolved "addr1"; serviceUriConfig := Resolved "uris" |}.

(** [isEnabled()] is true but [enable()] still signals approval
    pending. *)
Definition enabledButPending : R :=
  {| isEnabled := Resolved true; enable := Rejected approvalPending;
     state := Resolved "addr1"; serviceUriConfig := Resolved "uris" |}.

(** [enable()] resolves and [enabledApi.state()] rejects. *)
Definition detailsRejected : R :=
  {| isEnabled := Resolved true; enable := Resolved "api";
     state := Rejected networkDown; serviceUriConfig := Resolved "uris" |}.

(** [isEnabled()] itself throws. *)
Definition isEnabledThrows : R :=
  {| isEnabled := Rejected networkDown; enable := Resolved "api";
     state := Resolved "addr1"; serviceUriConfig := Resolved "uris" |}.

(** The two components at mount. *)
Definition mounted : Reactive.ProviderState string string string :=
  Reactive.initialState.

Definition legacyMounted : Legacy.ProviderState string string string :=
  Legacy.initialState.

(** The component after mount on a page whose wallet is not enabled. *)
Definition idle : Reactive.ProviderState string string string :=
  execState (Reactive.initialLoadCheck "mnLace" window notEnabled) mounted.

(** The component connected to address [addr1], polls armed. *)
Definition connected : Reactive.ProviderState string string string :=
  execState
    (Reactive.connectWallet "mnLace" window allResolve ;;
     Reactive.backgroundPollingEffect)
    idle.

Definition legacyIdle : Legacy.ProviderState string string string :=
  execState (Legacy.initialLoadCheck "mnLace" window notEnabled)
    legacyMounted.

End Scenario.

(** * Properties of the component with approval polling *)

Section ReactiveProperties.

Import Reactive.

Variables API Uris WState : Type.
Variable address : WState -> string.
Variable targetWalletName : string.

Local Abbreviation State := (ProviderState API Uris WState).
Local Abbreviation Replies := (Replies API Uris WState).

(** Running a setter is a record update; the lemmas below let [rewrite]
    walk through a callback one call at a time. *)
Lemma exec_bind (A B : Type) (m : M API Uris WState A)
    (k : A -> M API Uris WState B) (s : State) :
  runState (bind m k) s =
  runState (k (fst (runState m s))) (snd (runState m s)).
Proof.
  cbn. destruct (runState m s); reflexivity.
Qed.

(** Sequencing two callbacks composes their effects on the state. *)
Lemma execState_seq (A B : Type) (m : M API Uris WState A)
    (k : M API Uris WState B) (s : State) :
  execState (m ;; k) s = execState k (execState m s).
Proof.
  unfold execState. rewrite exec_bind. reflexivity.
Qed.

(** [_fetchDetails] touches neither the handle nor the timers. *)
Lemma fetchDetails_frame (r : Replies) (s : State) :
  let s' := execState (_fetchDetails r) s in
  walletApi s' = walletApi s /\
  walletName s' = walletName s /\
  isConnecting s' = isConnecting s /\
  infoMessage s' = infoMessage s /\
  statusPollIntervalRef s' = statusPollIntervalRef s /\
  statePollIntervalRef s' = statePollIntervalRef s /\
  approvalPollIntervalRef s' = approvalPollIntervalRef s.
Proof.
  unfold _fetchDetails.
  destruct (state r), (serviceUriConfig r); cbn; repeat split.
Qed.

(** The flag [_establishConnection] returns depends on the replies
    only. *)
Lemma establishConnection_flag (connector : DAppConnectorAPI) (b : bool)
    (r : Replies) (s : State) :
  evalState (_establishConnection connector b r) s =
  match enable r with
  | Resolved _ => detailsResolve r
  | Rejected _ => false
  end.
Proof.
  unfold _establishConnection, _fetchDetails, detailsResolve.
  destruct (enable r) as [api | err].
  - destruct (state r), (serviceUriConfig r); reflexivity.
  - destruct (isApprovalError (code err) (errorMsg err)), b; reflexivity.
Qed.

(** [_establishConnection] leaves the timers, [isConnecting] and
    [isCheckingStatus] alone. *)
Lemma establishConnection_frame (connector : DAppConnectorAPI) (b : bool)
    (r : Replies) (s : State) :
  let s' := execState (_establishConnection connector b r) s in
  isConnecting s' = isConnecting s /\
  isCheckingStatus s' = isCheckingStatus s /\
  statusPollIntervalRef s' = statusPollIntervalRef s /\
  statePollIntervalRef s' = statePollIntervalRef s /\
  approvalPollIntervalRef s' = approvalPollIntervalRef s /\
  attempts s' = attempts s.
Proof.
  unfold _establishConnection, _fetchDetails.
  destruct (enable r) as [api | err].
  - destruct (state r), (serviceUriConfig r); cbn; repeat split.
  - destruct (isApprovalError (code err) (errorMsg err)), b;
      cbn; repeat split.
Qed.

(** A fully successful [_establishConnection]. *)
Lemma establishConnection_success (connector : DAppConnectorAPI) (b : bool)
    (r : Replies) (s : State) (api : API) (ws : WState) (u : Uris) :
  enable r = Resolved api ->
  state r = Resolved ws ->
  serviceUriConfig r = Resolved u ->
  let s' := execState (_establishConnection connector b r) s in
  walletApi s' = Some api /\ walletState s' = Some ws /\
  serviceUris s' = Some u /\ walletName s' = Some (name connector) /\
  error s' = None /\ infoMessage s' = None.
Proof.
  intros He Hs Hu. unfold _establishConnection, _fetchDetails.
  rewrite He, Hs, Hu. cbn. repeat split.
Qed.

(** [enable()] resolved but a detail fetch rejected. *)
Lemma establishConnection_partial (connector : DAppConnectorAPI) (b : bool)
    (r : Replies) (s : State) (api : API) :
  enable r = Resolved api ->
  detailsResolve r = false ->
  let s' := execState (_establishConnection connector b r) s in
  walletApi s' = Some api /\ walletState s' = None /\
  serviceUris s' = None /\
  error s' = Some "Connected, but failed to fetch wallet details." /\
  infoMessage s' = infoMessage s.
Proof.
  intros He Hd. unfold _establishConnection, _fetchDetails.
  unfold detailsResolve in Hd. rewrite He.
  destruct (state r), (serviceUriConfig r); try discriminate;
    cbn; repeat split.
Qed.

(** [enable()] rejected: the partial state is reset; the error cell is
    written only for a manual attempt that did not meet the
    approval-pending signal. *)
Lemma establishConnection_rejected (connector : DAppConnectorAPI) (b : bool)
    (r : Replies) (s : State) (err : Thrown) :
  enable r = Rejected err ->
  let s' := execState (_establishConnection connector b r) s in
  walletApi s' = None /\ walletState s' = None /\
  serviceUris s' = None /\ walletName s' = None /\
  infoMessage s' = infoMessage s /\
  error s' =
    (if isApprovalError (code err) (errorMsg err) || b then error s
     else Some (connectionFailed (errorMsg err) (code err))).
Proof.
  intros He. unfold _establishConnection. rewrite He.
  destruct (isApprovalError (code err) (errorMsg err)), b;
    cbn; repeat split.
Qed.

(** C10: whenever a connection attempt fully succeeds ([enable()],
    [state()] and [serviceUriConfig()] all resolve), the resulting state
    has [error = null] and [infoMessage = null], whatever was left there
    by an earlier attempt.  This holds of [_establishConnection] itself
    and of each of its three callers: [connectWallet] (state [sc]), the
    approval poll that sees the wallet enabled (state [sa]) and the
    initial load check (state [si]). *)
Theorem success_clears_error_and_info
    (window : option Window) (connector : DAppConnectorAPI)
    (isInitialCheck : bool) (r : Replies) (s sc sa si : State)
    (api : API) (ws : WState) (u : Uris) :
  enable r = Resolved api ->
  state r = Resolved ws ->
  serviceUriConfig r = Resolved u ->
  getConnector window targetWalletName = Some connector ->
  isConnecting sc = false -> walletApi sc = None ->
  (attempts sa < maxAttempts)%Z ->
  isEnabled r = Resolved true ->
  let established :=
    runState (_establishConnection connector isInitialCheck r) s in
  let connectedManually :=
    execState (connectWallet targetWalletName window r) sc in
  let approved := execState (approvalPollCallback connector r) sa in
  let checked := execState (initialLoadCheck targetWalletName window r) si in
  (fst established = true /\
   error (snd established) = None /\ infoMessage (snd established) = None /\
   walletApi (snd established) = Some api) /\
  (error connectedManually = None /\ infoMessage connectedManually = None /\
   walletApi connectedManually = Some api) /\
  (error approved = None /\ infoMessage approved = None /\
   walletApi approved = Some api) /\
  (error checked = None /\ infoMessage checked = None /\
   walletApi checked = Some api).
Proof.
  intros He Hs Hu Hc Hsc1 Hsc2 Hsa Hen.
  assert (Hlt : (maxAttempts <? attempts sa + 1)%Z = false)
    by (apply Z.ltb_ge; lia).
  repeat split.
  all: unfold connectWallet, approvalPollCallback, initialLoadCheck,
         isConnected, _establishConnection, _fetchDetails.
  all: cbv [execState evalState]; cbn.
  all: rewrite ?Hsc1, ?Hsc2, ?Hlt, ?Hc, ?Hen, ?He, ?Hs, ?Hu; cbn.
  all: rewrite ?He, ?Hs, ?Hu; reflexivity.
Qed.

(** C1: a detail fetch that fails after [enable()] succeeded sets the
    error "Connected, but failed to fetch wallet details." and is
    reported as a failure, yet the handle stays: [walletApi] keeps the
    enabled API and [isConnected] is true, both out of
    [_establishConnection] and at the end of a manual [connectWallet]
    started from a disconnected state [sc]. *)
Theorem details_failure_keeps_walletApi
    (window : option Window) (connector : DAppConnectorAPI)
    (isInitialCheck : bool) (r : Replies) (s sc : State) (api : API) :
  enable r = Resolved api ->
  detailsResolve r = false ->
  getConnector window targetWalletName = Some connector ->
  isConnecting sc = false -> walletApi sc = None ->
  let established :=
    runState (_establishConnection connector isInitialCheck r) s in
  let afterConnect :=
    execState (connectWallet targetWalletName window r) sc in
  (fst established = false /\
   walletApi (snd established) = Some api /\
   isConnected (snd established) = true /\
   error (snd established) =
     Some "Connected, but failed to fetch wallet details.") /\
  (walletApi afterConnect = Some api /\
   isConnected afterConnect = true /\
   error afterConnect =
     Some "Connected, but failed to fetch wallet details.").
Proof.
  intros He Hd Hc Hsc1 Hsc2.
  unfold detailsResolve in Hd.
  split.
  - unfold isConnected, _establishConnection, _fetchDetails.
    rewrite He.
    destruct (state r), (serviceUriConfig r); try discriminate;
      cbn; repeat split.
  - unfold connectWallet, isConnected, _establishConnection, _fetchDetails.
    cbv [execState]; cbn.
    rewrite Hsc1, Hsc2, Hc, He; cbn.
    destruct (state r), (serviceUriConfig r); try discriminate;
      destruct (error sc) as [[| ch rest] |]; cbn; repeat split.
Qed.

(** C2: in a manual attempt started while the rendered [error] is null
    (or empty), every failure of [enable()] arms the approval poll and
    leaves [isConnecting] true, whether or not it carries the
    approval-pending signal; an ordinary failure sets its "Connection
    failed" message as well.  The test [!success && !error] of
    [connectWallet] reads the [error] of the render that created the
    callback. *)
Theorem connectWallet_polls_on_any_enable_failure
    (window : option Window) (connector : DAppConnectorAPI)
    (r : Replies) (s : State) (err : Thrown) :
  isConnecting s = false -> walletApi s = None ->
  truthy (error s) = false ->
  getConnector window targetWalletName = Some connector ->
  enable r = Rejected err ->
  let s' := execState (connectWallet targetWalletName window r) s in
  approvalPollIntervalRef s' = Some connector /\
  isConnecting s' = true /\
  infoMessage s' <> None /\
  error s' =
    (if isApprovalError (code err) (errorMsg err) then None
     else Some (connectionFailed (errorMsg err) (code err))).
Proof.
  intros Hs1 Hs2 Ht Hc He.
  unfold connectWallet, isConnected, _establishConnection.
  cbv [execState]; cbn.
  rewrite Hs1, Hs2, Hc, He; cbn.
  destruct (isApprovalError (code err) (errorMsg err)); cbn;
    rewrite Ht; cbn; repeat split; discriminate.
Qed.


(** C6: a status poll that sees [isEnabled()] return false, or throw,
    resets the whole state: [walletApi], [walletState], [serviceUris] and
    [walletName] are null, no interval is armed and [isConnecting] is
    false (so are [error], [infoMessage] and [isCheckingStatus]). *)
Theorem statusPoll_failure_resets
    (window : option Window) (r : Replies) (s : State) :
  isEnabled r = Resolved false \/ (exists err, isEnabled r = Rejected err) ->
  let s' := execState (statusPollCallback targetWalletName window r) s in
  walletApi s' = None /\ walletState s' = None /\
  serviceUris s' = None /\ walletName s' = None /\
  timersCleared s' /\ isConnecting s' = false /\
  error s' = None /\ infoMessage s' = None /\
  isCheckingStatus s' = false /\ isConnected s' = false.
Proof.
  intros H. unfold statusPollCallback, timersCleared.
  destruct (getConnector window targetWalletName) as [connector |].
  - destruct H as [H | [err H]]; rewrite H; cbn; repeat split.
  - cbn; repeat split.
Qed.

(** C7: a state poll whose returned address differs from the cached one
    stores the new wallet state and changes nothing else, so [walletApi]
    and [isConnected] are kept; and the poll drops the handle exactly
    when [state()] throws. *)
Theorem statePoll_updates_walletState
    (c : StatePollClosure API WState) (r : Replies) (s : State) (api : API) :
  walletApi s = Some api ->
  let s' := execState (statePollCallback address c r) s in
  (forall newState,
     state r = Resolved newState ->
     option_map address (cachedWalletState c) <> Some (address newState) ->
     s' = execState (setWalletState (Some newState)) s /\
     walletState s' = Some newState /\
     walletApi s' = Some api /\ isConnected s' = true) /\
  (walletApi s' = None <-> exists err, state r = Rejected err).
Proof.
  intros Hapi. unfold statePollCallback, addressDiffers, isConnected.
  destruct (state r) as [newState | err]; cbn.
  - split.
    + intros ns Hns Hdiff. injection Hns as <-.
      destruct (cachedWalletState c) as [ws |]; cbn in *.
      * destruct (String.eqb_spec (address newState) (address ws)) as [E | E].
        -- exfalso. apply Hdiff. now rewrite E.
        -- cbn. rewrite Hapi. repeat split.
      * cbn. rewrite Hapi. repeat split.
    + split.
      * destruct (cachedWalletState c) as [ws |]; cbn.
        -- destruct (String.eqb (address newState) (address ws)); cbn;
             rewrite Hapi; discriminate.
        -- rewrite Hapi; discriminate.
      * intros [e He]; discriminate.
  - split.
    + intros ns Hns; discriminate.
    + split; [intros _; now exists err | reflexivity].
Qed.

(** *** Approval polling *)

(** C4 (amended): an approval poll within its budget that sees
    [isEnabled()] return true clears the timers and re-runs
    [_establishConnection] as a manual attempt, then clears the info
    message and [isConnecting].  If the re-run fully succeeds the
    component is connected with no error; if a detail fetch fails, or
    [enable()] fails with an ordinary error, the error cell is set; if
    [enable()] fails with the approval-pending signal again, the error
    cell is left as it was and the handle is null. *)
Theorem approvalPoll_enabled_reruns_connect
    (connector : DAppConnectorAPI) (r : Replies) (s : State) :
  (attempts s < maxAttempts)%Z ->
  isEnabled r = Resolved true ->
  let s' := execState (approvalPollCallback connector r) s in
  timersCleared s' /\ isConnecting s' = false /\ infoMessage s' = None /\
  (forall api ws u,
     enable r = Resolved api -> state r = Resolved ws ->
     serviceUriConfig r = Resolved u ->
     walletApi s' = Some api /\ walletState s' = Some ws /\
     serviceUris s' = Some u /\ error s' = None) /\
  (forall api,
     enable r = Resolved api -> detailsResolve r = false ->
     error s' = Some "Connected, but failed to fetch wallet details.") /\
  (forall err,
     enable r = Rejected err ->
     walletApi s' = None /\
     error s' =
       (if isApprovalError (code err) (errorMsg err) then error s
        else Some (connectionFailed (errorMsg err) (code err)))).
Proof.
  intros Hbudget Hen.
  assert (Hlt : (maxAttempts <? attempts s + 1)%Z = false)
    by (apply Z.ltb_ge; lia).
  unfold approvalPollCallback, timersCleared, detailsResolve,
    _establishConnection, _fetchDetails.
  cbv [execState]; cbn. rewrite Hlt, Hen; cbn.
  destruct (enable r) as [api | err].
  - destruct (state r) as [ws | e1], (serviceUriConfig r) as [u | e2]; cbn;
      repeat split; congruence.
  - destruct (isApprovalError (code err) (errorMsg err)) eqn:Happ; cbn;
      repeat split; try discriminate;
      match goal with
      | H : Rejected _ = Rejected _ |- _ => injection H as <-
      end; rewrite Happ; reflexivity.
Qed.

(** A cleared approval interval never fires again. *)
Lemma approvalPollTick_cleared (r : Replies) (s : State) :
  approvalPollIntervalRef s = None ->
  execState (approvalPollTick r) s = s.
Proof.
  intros H. unfold approvalPollTick. cbv [execState]; cbn.
  rewrite H. reflexivity.
Qed.

Lemma approvalPolling_cleared (rs : list Replies) (s : State) :
  approvalPollIntervalRef s = None ->
  execState (approvalPolling rs) s = s.
Proof.
  intros H. induction rs as [| r rest IH]; [reflexivity |].
  cbn [approvalPolling].
  rewrite execState_seq, approvalPollTick_cleared by exact H.
  exact IH.
Qed.

(** Polling in two stretches. *)
Lemma approvalPolling_app (rs1 rs2 : list Replies) (s : State) :
  execState (approvalPolling (rs1 ++ rs2)) s =
  execState (approvalPolling rs2) (execState (approvalPolling rs1) s).
Proof.
  revert s. induction rs1 as [| r rest IH]; intros s; [reflexivity |].
  cbn [approvalPolling app]. rewrite !execState_seq. apply IH.
Qed.

(** While the wallet answers "not enabled" and the budget lasts, a
    period of the approval interval only counts. *)
Lemma approvalPolling_waiting (rs : list Replies) (s : State)
    (connector : DAppConnectorAPI) :
  approvalPollIntervalRef s = Some connector ->
  Forall (fun r => isEnabled r = Resolved false) rs ->
  (attempts s + Z.of_nat (length rs) <= maxAttempts)%Z ->
  execState (approvalPolling rs) s =
  execState (setAttempts (attempts s + Z.of_nat (length rs))) s.
Proof.
  revert s. induction rs as [| r rest IH]; intros s Href Hall Hlen.
  - destruct s; cbn in *. f_equal. lia.
  - inversion Hall as [| r' rest' Hr Hrest]; subst.
    cbn [length] in Hlen.
    assert (Hlt : (maxAttempts <? attempts s + 1)%Z = false)
      by (apply Z.ltb_ge; lia).
    cbn [approvalPolling]. rewrite execState_seq.
    assert (Hs1 : execState (approvalPollTick r) s =
                  execState (setAttempts (attempts s + 1)) s).
    { unfold approvalPollTick, approvalPollCallback.
      cbv [execState]; cbn. rewrite Href; cbn. rewrite Hlt, Hr; cbn.
      rewrite ?Href. reflexivity. }
    rewrite Hs1, IH; try assumption.
    + cbn. f_equal. cbn [length]. lia.
    + cbn. lia.
Qed.

(** The period after the budget is spent. *)
Lemma approvalPollTick_timeout (r : Replies) (s : State)
    (connector : DAppConnectorAPI) :
  approvalPollIntervalRef s = Some connector ->
  (maxAttempts <= attempts s)%Z ->
  let s' := execState (approvalPollTick r) s in
  error s' =
    Some "Connection timed out. Did you approve the request in the wallet?" /\
  timersCleared s' /\ isConnecting s' = false /\ infoMessage s' = None.
Proof.
  intros Href Hlen.
  assert (Hlt : (maxAttempts <? attempts s + 1)%Z = true)
    by (apply Z.ltb_lt; lia).
  unfold approvalPollTick, approvalPollCallback, timersCleared.
  cbv [execState]; cbn. rewrite Href; cbn. rewrite Hlt; cbn.
  repeat split.
Qed.

(** C5: started by [_startApprovalPolling], an approval interval that
    runs for more than [maxAttempts] (timeout / interval) periods with
    [isEnabled()] answering false each time ends with the time-out
    error, every interval cleared and [isConnecting] false; and a poll
    (within the budget, state [sp]) whose [isEnabled()] throws ends with
    the poll error, every interval cleared and [isConnecting] false. *)
Theorem approvalPolling_times_out
    (connector : DAppConnectorAPI) (s sp : State) (rs : list Replies)
    (r : Replies) (pollErr : Thrown) :
  (maxAttempts < Z.of_nat (length rs))%Z ->
  Forall (fun r => isEnabled r = Resolved false)
    (firstn (Z.to_nat maxAttempts) rs) ->
  (attempts sp < maxAttempts)%Z ->
  isEnabled r = Rejected pollErr ->
  let timedOut :=
    execState (approvalPolling rs)
      (execState (_startApprovalPolling connector) s) in
  let failed := execState (approvalPollCallback connector r) sp in
  (error timedOut =
     Some "Connection timed out. Did you approve the request in the wallet?" /\
   timersCleared timedOut /\ isConnecting timedOut = false) /\
  (error failed =
     Some "An error occurred while checking wallet approval status." /\
   timersCleared failed /\ isConnecting failed = false).
Proof.
  intros Hlen Hall Hbudget Hthrow. split.
  - set (n := Z.to_nat maxAttempts) in *.
    assert (Hmax : Z.of_nat n = maxAttempts) by (subst n; reflexivity).
    assert (Hn : (n <= length rs)%nat) by lia.
    rewrite <- (firstn_skipn n rs), approvalPolling_app.
    set (s0 := execState (_startApprovalPolling connector) s).
    assert (Href0 : approvalPollIntervalRef s0 = Some connector)
      by reflexivity.
    assert (Hatt0 : attempts s0 = 0%Z) by reflexivity.
    rewrite (@approvalPolling_waiting (firstn n rs) s0 connector Href0 Hall)
      by (rewrite firstn_length_le by exact Hn; lia).
    rewrite firstn_length_le by exact Hn.
    destruct (skipn n rs) as [| r1 rest] eqn:Hskip.
    { apply (f_equal (@length _)) in Hskip.
      rewrite length_skipn in Hskip. cbn in Hskip. lia. }
    set (s1 := execState (setAttempts (attempts s0 + Z.of_nat n)) s0).
    assert (Href1 : approvalPollIntervalRef s1 = Some connector)
      by reflexivity.
    assert (Hatt1 : (maxAttempts <= attempts s1)%Z).
    { subst s1. cbn. rewrite Hmax. cbn. lia. }
    destruct (@approvalPollTick_timeout r1 s1 connector Href1 Hatt1)
      as (He & Ht & Hc & _).
    cbn [approvalPolling]. rewrite execState_seq.
    rewrite approvalPolling_cleared by apply Ht.
    repeat split; try assumption; apply Ht.
  - assert (Hlt : (maxAttempts <? attempts sp + 1)%Z = false)
      by (apply Z.ltb_ge; lia).
    unfold approvalPollCallback, timersCleared.
    cbv [execState]; cbn. rewrite Hlt, Hthrow; cbn. repeat split.
Qed.

(** *** The timers *)

(** Case analysis on every test a callback makes, until the state it
    ends in is explicit. *)
Ltac run_callback :=
  cbv [execState]; cbn;
  repeat match goal with
         | |- context [if ?x then _ else _] => destruct x eqn:?; cbn
         | |- context [match ?x with Some _ => _ | None => _ end] =>
             destruct x eqn:?; cbn
         | |- context [match ?x with Resolved _ => _ | Rejected _ => _ end] =>
             destruct x eqn:?; cbn
         end.

(** Arming the approval interval disarms the other two first. *)
Lemma startApprovalPolling_timers (connector : DAppConnectorAPI) (s : State) :
  let s' := execState (_startApprovalPolling connector) s in
  statusPollIntervalRef s' = None /\
  statePollIntervalRef s' = None /\
  approvalPollIntervalRef s' = Some connector.
Proof.
  cbn. repeat split.
Qed.

(** Arming the status and state intervals disarms the approval interval
    first. *)
Lemma backgroundPollingEffect_timers (s : State) :
  approvalPollIntervalRef (execState backgroundPollingEffect s) = None.
Proof.
  unfold backgroundPollingEffect. run_callback; reflexivity.
Qed.

(** No callback breaks the exclusion. *)
Lemma step_timersExclusive (s s' : State) :
  step address targetWalletName s s' ->
  timersExclusive s -> timersExclusive s'.
Proof.
  unfold timersExclusive.
  intros Hstep Hex; destruct Hstep.
  - assert (E : forall s0 : State,
               statusPollIntervalRef
                 (execState (initialLoadCheck targetWalletName window r) s0) =
                 statusPollIntervalRef s0 /\
               statePollIntervalRef
                 (execState (initialLoadCheck targetWalletName window r) s0) =
                 statePollIntervalRef s0 /\
               approvalPollIntervalRef
                 (execState (initialLoadCheck targetWalletName window r) s0) =
                 approvalPollIntervalRef s0).
    { intros s0.
      unfold initialLoadCheck, _establishConnection, _fetchDetails.
      run_callback; repeat split. }
    destruct (E s) as (-> & -> & ->). exact Hex.
  - left. apply backgroundPollingEffect_timers.
  - left. reflexivity.
  - unfold connectWallet, _establishConnection, _fetchDetails, isConnected.
    run_callback; auto.
  - left. reflexivity.
  - unfold approvalPollCallback, _establishConnection, _fetchDetails.
    run_callback; auto.
  - unfold statusPollCallback.
    run_callback; auto.
  - unfold statePollCallback.
    run_callback; auto.
Qed.

(** C9: in every reachable state the approval interval is not armed
    together with the status or the state interval; and, from such a
    state, each routine that arms intervals leaves the other set
    disarmed: [_startApprovalPolling] leaves the status and state refs
    null, the background polling effect leaves the approval ref null. *)
Theorem timers_exclusive (s : State) :
  reachable address targetWalletName s ->
  timersExclusive s /\
  (forall connector,
     statusPollIntervalRef (execState (_startApprovalPolling connector) s)
       = None /\
     statePollIntervalRef (execState (_startApprovalPolling connector) s)
       = None) /\
  approvalPollIntervalRef (execState backgroundPollingEffect s) = None.
Proof.
  intros Hreach. split; [| split].
  - induction Hreach as [| s s' _ IH Hstep].
    + left. reflexivity.
    + exact (step_timersExclusive Hstep IH).
  - intros connector. split; apply startApprovalPolling_timers.
  - apply backgroundPollingEffect_timers.
Qed.

End ReactiveProperties.

(** * Properties shared by the two variants *)

Section BothVariants.

Variables API Uris WState : Type.
Variable targetWalletName : string.

(** C8: [connectWallet] called while [isConnecting] or [isConnected] is
    true returns at once and leaves every cell of the state (and every
    timer) as it was, in the component with approval polling (state
    [sR]) and in the earlier variant (state [sL]). *)
Theorem connectWallet_noop_when_busy
    (window : option Window) (r : Replies API Uris WState)
    (sR : Reactive.ProviderState API Uris WState)
    (sL : Legacy.ProviderState API Uris WState) :
  Reactive.isConnecting sR = true \/ Reactive.isConnected sR = true ->
  Legacy.isConnecting sL = true \/ Legacy.isConnected sL = true ->
  execState (Reactive.connectWallet targetWalletName window r) sR = sR /\
  execState (Legacy.connectWallet targetWalletName window r) sL = sL.
Proof.
  intros HR HL. split.
  - unfold Reactive.connectWallet. cbv [execState]; cbn.
    destruct HR as [-> | ->]; [| rewrite orb_true_r]; reflexivity.
  - unfold Legacy.connectWallet. cbv [execState]; cbn.
    destruct HL as [-> | ->]; [rewrite orb_true_r |]; reflexivity.
Qed.

(** C3 (amended): the initial load check leaves the error cell alone
    when [enable()] fails, whatever the thrown value (code -3 included):
    in the component with approval polling [error] is unchanged, in the
    earlier variant, mounted with [error] null, it stays null.  When
    [isEnabled()] itself throws, the component with approval polling
    leaves [error] unchanged, while the earlier variant reports "Could
    not check initial wallet status." whenever the connector is
    present. *)
Theorem initialLoadCheck_silent_on_enable_failure
    (window : option Window) (err : Thrown)
    (en : Promise API) (st : Promise WState) (u : Promise Uris)
    (sR : Reactive.ProviderState API Uris WState)
    (sL : Legacy.ProviderState API Uris WState) :
  Legacy.error sL = None ->
  let throws :=
    {| isEnabled := Rejected err; enable := en;
       state := st; serviceUriConfig := u |} in
  let refused :=
    {| isEnabled := Resolved true; enable := Rejected err;
       state := st; serviceUriConfig := u |} in
  Reactive.error
    (execState (Reactive.initialLoadCheck targetWalletName window refused) sR)
    = Reactive.error sR /\
  Reactive.error
    (execState (Reactive.initialLoadCheck targetWalletName window throws) sR)
    = Reactive.error sR /\
  Legacy.error
    (execState (Legacy.initialLoadCheck targetWalletName window refused) sL)
    = None /\
  Legacy.error
    (execState (Legacy.initialLoadCheck targetWalletName window throws) sL)
    = match getConnector window targetWalletName with
      | Some _ => Some "Could not check initial wallet status."
      | None => None
      end.
Proof.
  intros HL.
  unfold Reactive.initialLoadCheck, Reactive._establishConnection,
    Legacy.initialLoadCheck, Legacy._establishConnection,
    Legacy.establishFailed.
  cbv [execState]; cbn.
  destruct (getConnector window targetWalletName) as [connector |]; cbn.
  - destruct (isApprovalError (code err) (Reactive.errorMsg err)); cbn;
      repeat split.
  - repeat split; assumption.
Qed.

End BothVariants.

(** * The properties at concrete runs *)

Section Runs.

Import Scenario.

(** Mount, manual connect and the polling effect lead to
    [Scenario.connected]. *)
Lemma connected_reachable :
  Reactive.reachable address "mnLace" connected.
Proof.
  unfold connected. rewrite execState_seq.
  eapply Reactive.reachable_step; [| apply Reactive.step_backgroundPollingEffect].
  eapply Reactive.reachable_step; [| apply Reactive.step_connectWallet].
  unfold idle.
  eapply Reactive.reachable_step; [| apply Reactive.step_initialLoadCheck].
  apply Reactive.reachable_mount.
Qed.

(** C1, at the manual connect of an idle component whose wallet grants
    [enable()] and then rejects [state()]. *)
Lemma details_failure_keeps_walletApi_run :
  let established :=
    runState (Reactive._establishConnection mnLace false detailsRejected)
      idle in
  let afterConnect :=
    execState (Reactive.connectWallet "mnLace" window detailsRejected) idle in
  (fst established = false /\
   Reactive.walletApi (snd established) = Some "api" /\
   Reactive.isConnected (snd established) = true /\
   Reactive.error (snd established) =
     Some "Connected, but failed to fetch wallet details.") /\
  (Reactive.walletApi afterConnect = Some "api" /\
   Reactive.isConnected afterConnect = true /\
   Reactive.error afterConnect =
     Some "Connected, but failed to fetch wallet details.").
Proof.
  apply (@details_failure_keeps_walletApi string string string "mnLace"
           window mnLace false detailsRejected idle idle "api");
    reflexivity.
Defined.

(** C2, at the manual connect of an idle component whose wallet rejects
    [enable()] with code -1: the error is shown and the approval poll is
    armed all the same. *)
Lemma connectWallet_polls_on_any_enable_failure_run :
  let s' :=
    execState (Reactive.connectWallet "mnLace" window enableRejected) idle in
  Reactive.approvalPollIntervalRef s' = Some mnLace /\
  Reactive.isConnecting s' = true /\
  Reactive.infoMessage s' <> None /\
  Reactive.error s' = Some "Connection failed: User rejected (Code: -1)".
Proof.
  apply (@connectWallet_polls_on_any_enable_failure string string string
           "mnLace" window mnLace enableRejected idle userRejected);
    reflexivity.
Defined.

(** C3 as stated fails: in the earlier variant a throwing [isEnabled()]
    at mount sets the error cell; in the component with approval polling
    a detail fetch that fails during the initial check sets it. *)
Lemma initialLoadCheck_sets_error :
  Legacy.error
    (execState (Legacy.initialLoadCheck "mnLace" window isEnabledThrows)
       legacyMounted)
    = Some "Could not check initial wallet status." /\
  Reactive.error
    (execState (Reactive.initialLoadCheck "mnLace" window detailsRejected)
       mounted)
    = Some "Connected, but failed to fetch wallet details.".
Proof.
  split; reflexivity.
Qed.

(** C3 (amended), at mount with a wallet whose [enable()] or
    [isEnabled()] throws the approval-pending error. *)
Lemma initialLoadCheck_silent_on_enable_failure_run :
  Reactive.error
    (execState (Reactive.initialLoadCheck "mnLace" window enabledButPending)
       mounted) = None /\
  Reactive.error
    (execState (Reactive.initialLoadCheck "mnLace" window
       {| isEnabled := Rejected approvalPending;
          enable := Rejected approvalPending;
          state := Resolved "addr1"; serviceUriConfig := Resolved "uris" |})
       mounted) = None /\
  Legacy.error
    (execState (Legacy.initialLoadCheck "mnLace" window enabledButPending)
       legacyMounted) = None /\
  Legacy.error
    (execState (Legacy.initialLoadCheck "mnLace" window
       {| isEnabled := Rejected approvalPending;
          enable := Rejected approvalPending;
          state := Resolved "addr1"; serviceUriConfig := Resolved "uris" |})
       legacyMounted)
    = Some "Could not check initial wallet status.".
Proof.
  apply (@initialLoadCheck_silent_on_enable_failure string string string
           "mnLace" window approvalPending (Rejected approvalPending)
           (Resolved "addr1") (Resolved "uris")
           mounted legacyMounted).
  reflexivity.
Defined.

(** C4 as stated fails: the wallet signals approval pending, the poll
    then sees [isEnabled()] true, and the re-run of [enable()] signals
    approval pending again.  The re-run fails, yet no error is set: the
    component ends disconnected, idle and silent. *)
Lemma approvalPoll_rerun_fails_without_error :
  let waiting :=
    execState (Reactive.connectWallet "mnLace" window enablePending) idle in
  let after := execState (Reactive.approvalPollTick enabledButPending) waiting in
  Reactive.approvalPollIntervalRef waiting = Some mnLace /\
  evalState (Reactive._establishConnection mnLace false enabledButPending)
    waiting = false /\
  Reactive.error after = None /\
  Reactive.walletApi after = None /\
  Reactive.isConnecting after = false /\
  Reactive.infoMessage after = None /\
  Reactive.timersCleared after.
Proof.
  cbv [Reactive.timersCleared]. repeat split.
Qed.

(** C4 (amended), at a poll that finds the wallet enabled and ready. *)
Lemma approvalPoll_enabled_reruns_connect_run :
  let waiting :=
    execState (Reactive.connectWallet "mnLace" window enablePending) idle in
  let s' := execState (Reactive.approvalPollCallback mnLace allResolve) waiting in
  Reactive.walletApi s' = Some "api" /\
  Reactive.walletState s' = Some "addr1" /\
  Reactive.serviceUris s' = Some "uris" /\
  Reactive.error s' = None.
Proof.
  pose (waiting :=
    execState (Reactive.connectWallet "mnLace" window enablePending) idle).
  assert (Hbudget : (Reactive.attempts waiting < maxAttempts)%Z)
    by reflexivity.
  destruct (@approvalPoll_enabled_reruns_connect string string string
              mnLace allResolve waiting Hbudget eq_refl)
    as (_ & _ & _ & Hok & _).
  exact (Hok "api" "addr1" "uris" eq_refl eq_refl eq_refl).
Defined.

(** C5, at thirty-one periods of a wallet that never gets enabled, and
    at a first period whose [isEnabled()] throws. *)
Lemma approvalPolling_times_out_run :
  let waiting :=
    execState (Reactive.connectWallet "mnLace" window enablePending) idle in
  let timedOut :=
    execState (Reactive.approvalPolling (repeat notEnabled 31))
      (execState (Reactive._startApprovalPolling mnLace) idle) in
  let failed :=
    execState (Reactive.approvalPollCallback mnLace isEnabledThrows) waiting in
  (Reactive.error timedOut =
     Some "Connection timed out. Did you approve the request in the wallet?" /\
   Reactive.timersCleared timedOut /\
   Reactive.isConnecting timedOut = false) /\
  (Reactive.error failed =
     Some "An error occurred while checking wallet approval status." /\
   Reactive.timersCleared failed /\
   Reactive.isConnecting failed = false).
Proof.
  apply (@approvalPolling_times_out string string string mnLace idle
           (execState (Reactive.connectWallet "mnLace" window enablePending)
              idle)
           (repeat notEnabled 31) isEnabledThrows networkDown).
  - reflexivity.
  - cbn. repeat constructor.
  - reflexivity.
  - reflexivity.
Defined.

(** C6, at a connected component whose wallet got disabled. *)
Lemma statusPoll_failure_resets_run :
  let s' :=
    execState (Reactive.statusPollCallback "mnLace" window notEnabled)
      connected in
  Reactive.walletApi s' = None /\ Reactive.walletState s' = None /\
  Reactive.serviceUris s' = None /\ Reactive.walletName s' = None /\
  Reactive.timersCleared s' /\ Reactive.isConnecting s' = false /\
  Reactive.error s' = None /\ Reactive.infoMessage s' = None /\
  Reactive.isCheckingStatus s' = false /\ Reactive.isConnected s' = false.
Proof.
  apply (@statusPoll_failure_resets string string string "mnLace"
           window notEnabled connected).
  left. reflexivity.
Defined.

(** C7, at a connected component whose wallet switched from [addr1] to
    [addr2]. *)
Lemma statePoll_updates_walletState_run :
  let c := {| Reactive.currentWalletApi := "api";
              Reactive.cachedWalletState := Some "addr1" |} in
  let s' :=
    execState (Reactive.statePollCallback address c accountSwitched)
      connected in
  Reactive.walletState s' = Some "addr2" /\
  Reactive.walletApi s' = Some "api" /\
  Reactive.isConnected s' = true.
Proof.
  destruct (@statePoll_updates_walletState string string string address
              {| Reactive.currentWalletApi := "api";
                 Reactive.cachedWalletState := Some "addr1" |}
              accountSwitched connected "api" eq_refl) as [Hupd _].
  destruct (Hupd "addr2" eq_refl) as (_ & Hws & Hapi & Hconn).
  - discriminate.
  - exact (conj Hws (conj Hapi Hconn)).
Defined.

(** C8, at a connected component and at an earlier-variant component in
    the middle of a manual attempt. *)
Lemma connectWallet_noop_when_busy_run :
  let busy := execState (Legacy.setIsConnecting string string string true)
                legacyIdle in
  execState (Reactive.connectWallet "mnLace" window allResolve) connected
    = connected /\
  execState (Legacy.connectWallet "mnLace" window allResolve) busy = busy.
Proof.
  apply (@connectWallet_noop_when_busy string string string "mnLace"
           window allResolve connected).
  - right. reflexivity.
  - left. reflexivity.
Defined.

(** C9, at the connected component. *)
Lemma timers_exclusive_run :
  Reactive.timersExclusive connected /\
  (forall connector,
     Reactive.statusPollIntervalRef
       (execState (Reactive._startApprovalPolling connector) connected)
       = None /\
     Reactive.statePollIntervalRef
       (execState (Reactive._startApprovalPolling connector) connected)
       = None) /\
  Reactive.approvalPollIntervalRef
    (execState Reactive.backgroundPollingEffect connected) = None.
Proof.
  exact (@timers_exclusive string string string address "mnLace" connected
           connected_reachable).
Defined.

(** C10, at a manual connect, an approved poll and an initial check of
    a wallet that answers everything, each started with a stale error
    and info message in the state. *)
Lemma success_clears_error_and_info_run :
  let stale :=
    execState (Reactive.setError string string string (Some "old error") ;;
               Reactive.setInfoMessage string string string (Some "old info"))
      idle in
  let established :=
    runState (Reactive._establishConnection mnLace false allResolve) stale in
  let connectedManually :=
    execState (Reactive.connectWallet "mnLace" window allResolve) stale in
  let approved :=
    execState (Reactive.approvalPollCallback mnLace allResolve) stale in
  let checked :=
    execState (Reactive.initialLoadCheck "mnLace" window allResolve) stale in
  (fst established = true /\
   Reactive.error (snd established) = None /\
   Reactive.infoMessage (snd established) = None /\
   Reactive.walletApi (snd established) = Some "api") /\
  (Reactive.error connectedManually = None /\
   Reactive.infoMessage connectedManually = None /\
   Reactive.walletApi connectedManually = Some "api") /\
  (Reactive.error approved = None /\
   Reactive.infoMessage approved = None /\
   Reactive.walletApi approved = Some "api") /\
  (Reactive.error checked = None /\
   Reactive.infoMessage checked = None /\
   Reactive.walletApi checked = Some "api").
Proof.
  intros stale.
  apply (@success_clears_error_and_info string string string "mnLace"
           window mnLace false allResolve stale stale stale stale
           "api" "addr1" "uris");
    reflexivity.
Defined.

End Runs.

(** * Further properties of the component with approval polling *)

Section ReactiveFlows.

Import Reactive.

Variables API Uris WState : Type.
Variable address : WState -> string.
Variable targetWalletName : string.

Local Abbreviation State := (ProviderState API Uris WState).
Local Abbreviation Replies := (Replies API Uris WState).

(** Case analysis on the tests of a callback, replies first. *)
Ltac explore :=
  cbv [execState evalState]; cbn;
  repeat match goal with
         | |- context [if ?x then _ else _] => destruct x eqn:?; cbn
         | |- context [match ?x with Some _ => _ | None => _ end] =>
             destruct x eqn:?; cbn
         | |- context [match ?x with Resolved _ => _ | Rejected _ => _ end] =>
             destruct x eqn:?; cbn
         | |- context [match ?x with EmptyString => _ | String _ _ => _ end] =>
             destruct x eqn:?; cbn
         end.

(** X1: a manual connect on a page without the target connector reports
    "Wallet connector '<name>' not found.", stops the connecting
    indicator, clears every interval and makes no call to the wallet:
    the cached handle, state, URIs and name are untouched. *)
Theorem connectWallet_connector_absent
    (window : option Window) (r : Replies) (s : State) :
  isConnecting s = false -> walletApi s = None ->
  getConnector window targetWalletName = None ->
  let s' := execState (connectWallet targetWalletName window r) s in
  error s' = Some ("Wallet connector '" ++ targetWalletName ++ "' not found.") /\
  isConnecting s' = false /\ infoMessage s' = None /\
  timersCleared s' /\
  walletApi s' = None /\ walletState s' = walletState s /\
  serviceUris s' = serviceUris s /\ walletName s' = walletName s /\
  isCheckingStatus s' = isCheckingStatus s.
Proof.
  intros H1 H2 Hc. unfold connectWallet, isConnected, timersCleared.
  cbv [execState]; cbn. rewrite H1, H2, Hc; cbn.
  repeat split; assumption.
Qed.

(** X2: a manual connect whose three calls resolve, followed by the
    background polling effect of the next render, leaves the component
    connected with the fetched state, URIs and the connector's name, no
    error, no loading flag, and with the status and state intervals
    armed (the state interval closing over the new handle and state)
    and the approval interval disarmed. *)
Theorem connect_then_effect_arms_polls
    (window : option Window) (connector : DAppConnectorAPI)
    (r : Replies) (s : State) (api : API) (ws : WState) (u : Uris) :
  isConnecting s = false -> walletApi s = None ->
  getConnector window targetWalletName = Some connector ->
  enable r = Resolved api -> state r = Resolved ws ->
  serviceUriConfig r = Resolved u ->
  let s' :=
    execState (connectWallet targetWalletName window r ;;
               backgroundPollingEffect) s in
  walletApi s' = Some api /\ walletState s' = Some ws /\
  serviceUris s' = Some u /\ walletName s' = Some (name connector) /\
  error s' = None /\ infoMessage s' = None /\
  isConnecting s' = false /\ isCheckingStatus s' = false /\
  statusPollIntervalRef s' = Some tt /\
  statePollIntervalRef s' =
    Some {| currentWalletApi := api; cachedWalletState := Some ws |} /\
  approvalPollIntervalRef s' = None.
Proof.
  intros H1 H2 Hc He Hs Hu.
  unfold connectWallet, backgroundPollingEffect, isConnected,
    _establishConnection, _fetchDetails.
  cbv [execState]; cbn. rewrite H1, H2, Hc, He; cbn.
  rewrite Hs, Hu; cbn. repeat split.
Qed.

(** The state a manual connect leaves when [enable()] signals approval
    pending and the rendered error is null: waiting, with the approval
    interval armed on a fresh counter. *)
Lemma connectWallet_awaiting (window : option Window)
    (connector : DAppConnectorAPI) (r : Replies) (s : State) (err : Thrown) :
  isConnecting s = false -> walletApi s = None ->
  truthy (error s) = false ->
  getConnector window targetWalletName = Some connector ->
  enable r = Rejected err ->
  isApprovalError (code err) (errorMsg err) = true ->
  let s' := execState (connectWallet targetWalletName window r) s in
  approvalPollIntervalRef s' = Some connector /\ attempts s' = 0%Z /\
  isConnecting s' = true /\ error s' = None /\ walletApi s' = None /\
  infoMessage s' =
    Some ("Connection prompt likely appeared in " ++ name connector ++
          ". Please approve it. Checking status...") /\
  statusPollIntervalRef s' = None /\ statePollIntervalRef s' = None.
Proof.
  intros H1 H2 Ht Hc He Ha.
  unfold connectWallet, isConnected, _establishConnection.
  cbv [execState]; cbn. rewrite H1, H2, Hc, He; cbn.
  rewrite Ha; cbn. rewrite Ht; cbn. repeat split.
Qed.

(** X3: while the user has not answered the prompt, the component keeps
    waiting: after a manual connect that met the approval-pending signal
    and any number of approval polls up to [maxAttempts], each answering
    "not enabled", the approval interval is still armed, the connecting
    indicator is on, the prompt message is shown, no error is set, and
    the counter equals the number of polls.  In particular the
    thirtieth poll does not time out. *)
Theorem approval_wait_keeps_waiting
    (window : option Window) (connector : DAppConnectorAPI)
    (r0 : Replies) (waits : list Replies) (s : State) (err : Thrown) :
  isConnecting s = false -> walletApi s = None ->
  truthy (error s) = false ->
  getConnector window targetWalletName = Some connector ->
  enable r0 = Rejected err ->
  isApprovalError (code err) (errorMsg err) = true ->
  Forall (fun r => isEnabled r = Resolved false) waits ->
  (Z.of_nat (length waits) <= maxAttempts)%Z ->
  let s' :=
    execState (connectWallet targetWalletName window r0 ;;
               approvalPolling waits) s in
  approvalPollIntervalRef s' = Some connector /\
  attempts s' = Z.of_nat (length waits) /\
  isConnecting s' = true /\ error s' = None /\ walletApi s' = None /\
  infoMessage s' =
    Some ("Connection prompt likely appeared in " ++ name connector ++
          ". Please approve it. Checking status...").
Proof.
  intros H1 H2 Ht Hc He Ha Hall Hlen.
  destruct (connectWallet_awaiting window r0 s H1 H2 Ht Hc He Ha)
    as (Href & Hatt & Hcon & Herr & Hapi & Hinfo & _).
  cbv zeta. rewrite execState_seq.
  remember (execState (connectWallet targetWalletName window r0) s) as s1.
  rewrite (@approvalPolling_waiting _ _ _ waits _ connector Href Hall)
    by (rewrite Hatt; lia).
  cbn. rewrite Hatt. repeat split; assumption.
Qed.

(** X4: the approval flow end to end.  A manual connect meets the
    approval-pending signal; fewer than [maxAttempts] polls answer "not
    enabled"; the next poll sees the wallet enabled and all three calls
    resolve.  The component ends connected with the fetched state and
    URIs, no error, no info message, the connecting indicator off and
    every interval cleared. *)
Theorem approval_granted_connects
    (window : option Window) (connector : DAppConnectorAPI)
    (r0 r : Replies) (waits : list Replies) (s : State) (err : Thrown)
    (api : API) (ws : WState) (u : Uris) :
  isConnecting s = false -> walletApi s = None ->
  truthy (error s) = false ->
  getConnector window targetWalletName = Some connector ->
  enable r0 = Rejected err ->
  isApprovalError (code err) (errorMsg err) = true ->
  Forall (fun r => isEnabled r = Resolved false) waits ->
  (Z.of_nat (length waits) < maxAttempts)%Z ->
  isEnabled r = Resolved true ->
  enable r = Resolved api -> state r = Resolved ws ->
  serviceUriConfig r = Resolved u ->
  let s' :=
    execState (connectWallet targetWalletName window r0 ;;
               approvalPolling (waits ++ [r])) s in
  walletApi s' = Some api /\ walletState s' = Some ws /\
  serviceUris s' = Some u /\ walletName s' = Some (name connector) /\
  error s' = None /\ infoMessage s' = None /\
  isConnecting s' = false /\ timersCleared s'.
Proof.
  intros H1 H2 Ht Hc He Ha Hall Hlen Hen Hen2 Hs Hu.
  destruct (connectWallet_awaiting window r0 s H1 H2 Ht Hc He Ha)
    as (Href & Hatt & _).
  cbv zeta. rewrite execState_seq, approvalPolling_app.
  remember (execState (connectWallet targetWalletName window r0) s) as s1.
  rewrite (@approvalPolling_waiting _ _ _ waits _ connector Href Hall)
    by (rewrite Hatt; lia).
  remember (execState (setAttempts (attempts s1 + Z.of_nat (length waits))) s1)
    as s2.
  assert (Href2 : approvalPollIntervalRef s2 = Some connector)
    by (subst s2; exact Href).
  assert (Hlt : (maxAttempts <? attempts s2 + 1)%Z = false).
  { apply Z.ltb_ge. subst s2. cbn. rewrite Hatt. lia. }
  cbn [approvalPolling]. rewrite execState_seq.
  unfold approvalPollTick, approvalPollCallback, timersCleared,
    _establishConnection, _fetchDetails.
  cbv [execState]; cbn. rewrite Href2; cbn. rewrite Hlt, Hen; cbn.
  rewrite Hen2; cbn. rewrite Hs, Hu; cbn. repeat split.
Qed.


(** X6: a state poll that returns a wallet state with the cached
    address changes nothing at all, whatever else differs in the
    returned state: the cached [walletState] is not refreshed. *)
Theorem statePoll_same_address_keeps_state
    (c : StatePollClosure API WState) (r : Replies) (s : State)
    (cached newState : WState) :
  cachedWalletState c = Some cached ->
  state r = Resolved newState ->
  address newState = address cached ->
  execState (statePollCallback address c r) s = s.
Proof.
  intros Hc Hs Ha. unfold statePollCallback, addressDiffers.
  rewrite Hs, Hc, Ha, String.eqb_refl. reflexivity.
Qed.

(** X7: while connected, a status poll drops the handle exactly when
    the connector has disappeared from the page, or [isEnabled()]
    answers false, or it throws; with the connector present and enabled
    the poll changes nothing. *)
Theorem statusPoll_disconnects_iff
    (window : option Window) (r : Replies) (s : State) (api : API) :
  walletApi s = Some api ->
  let s' := execState (statusPollCallback targetWalletName window r) s in
  (walletApi s' = None <->
     getConnector window targetWalletName = None \/
     isEnabled r = Resolved false \/
     exists err, isEnabled r = Rejected err) /\
  (getConnector window targetWalletName <> None ->
   isEnabled r = Resolved true -> s' = s).
Proof.
  intros Hapi. unfold statusPollCallback.
  destruct (getConnector window targetWalletName) as [connector |].
  - destruct (isEnabled r) as [[|] | err]; cbn.
    + split; [| reflexivity]. rewrite Hapi. split; [discriminate |].
      intros [H | [H | [e H]]]; discriminate.
    + split; [| discriminate]. split; auto.
    + split; [| discriminate]. split; eauto.
  - cbn. split; [split; auto |]. intros H; now elim H.
Qed.

(** X8: the initial load check always ends with [isCheckingStatus]
    false and never touches [isConnecting] or the intervals; when the
    connector is absent, or [isEnabled()] answers false or throws,
    nothing else changes either: the state is the one it started from
    with the checking flag cleared. *)
Theorem initialLoadCheck_ends_checking
    (window : option Window) (r : Replies) (s : State) :
  let s' := execState (initialLoadCheck targetWalletName window r) s in
  isCheckingStatus s' = false /\
  isConnecting s' = isConnecting s /\
  statusPollIntervalRef s' = statusPollIntervalRef s /\
  statePollIntervalRef s' = statePollIntervalRef s /\
  approvalPollIntervalRef s' = approvalPollIntervalRef s /\
  (getConnector window targetWalletName = None \/
   isEnabled r <> Resolved true ->
   s' = execState (setIsCheckingStatus API Uris WState false) s).
Proof.
  unfold initialLoadCheck, _establishConnection, _fetchDetails.
  explore; repeat split; try reflexivity;
    intros [H | H]; try discriminate; now elim H.
Qed.

(** *** Invariants of the reachable states *)


(** X10: in every reachable state the status interval and the state
    interval are armed together or not at all. *)
Theorem reachable_polls_paired (s : State) :
  reachable address targetWalletName s ->
  (statusPollIntervalRef s = None <-> statePollIntervalRef s = None).
Proof.
  intros Hreach. induction Hreach as [| s s' _ IH Hstep].
  - cbn. tauto.
  - destruct Hstep.
    all: unfold initialLoadCheck, backgroundPollingEffect, effectCleanup,
           connectWallet, disconnectWallet, approvalPollCallback,
           statusPollCallback, statePollCallback, isConnected,
           _establishConnection, _fetchDetails, _startApprovalPolling.
    all: explore.
    all: first [ exact IH | split; congruence ].
Qed.


End ReactiveFlows.

(** * Error classification and display *)

Section ErrorText.

(** [String.prefix] recognises exactly the strings that start with the
    given one. *)
Lemma prefix_spec (p s : string) :
  String.prefix p s = true <-> exists post, s = p ++ post.
Proof.
  revert s. induction p as [| a p IH]; intros s; cbn.
  - split; [intros _; now exists s | intros _; now destruct s].
  - destruct s as [| b s]; cbn.
    + split; [discriminate | intros [post H]; discriminate].
    + destruct (Ascii.ascii_dec a b) as [-> | Hab].
      * rewrite IH. split; intros [post H]; exists post; congruence.
      * split; [discriminate | intros [post H]; congruence].
Qed.

(** [includes] recognises exactly the strings that contain the given
    one. *)
Lemma includes_spec (sub s : string) :
  includes sub s = true <-> exists pre post, s = pre ++ sub ++ post.
Proof.
  induction s as [| c s IH]; cbn [includes].
  - rewrite orb_false_r, prefix_spec. split.
    + intros [post H]. now exists "", post.
    + intros (pre & post & H). destruct pre; [now exists post |].
      discriminate.
  - rewrite orb_true_iff, prefix_spec, IH. split.
    + intros [[post H] | (pre & post & H)].
      * now exists "", post.
      * exists (String c pre), post. cbn. now rewrite H.
    + intros (pre & post & H). destruct pre as [| c' pre]; cbn in H.
      * left. now exists post.
      * right. exists pre, post. congruence.
Qed.

(** X12: a failure of [enable()] counts as the approval-pending signal
    exactly when its code is the number -3 or its message contains
    "enable() first"; a string code such as "-3" does not count by
    itself. *)
Theorem isApprovalError_spec (c : ErrorCode) (msg : string) :
  isApprovalError c msg = true <->
    c = CodeNumber (-3) \/
    exists pre post, msg = pre ++ "enable() first" ++ post.
Proof.
  unfold isApprovalError. rewrite orb_true_iff, includes_spec.
  split; (intros [H | H]; [left | now right]).
  - destruct c as [| n | str]; try discriminate.
    apply Z.eqb_eq in H. now subst.
  - subst c. reflexivity.
Qed.

(** X13: the two variants read the message of a thrown value
    differently.  When [enable()] rejects, during a manual attempt, with
    a plain object (not an [Error] instance) that has no code and no
    reason and whose message contains "enable() first", the component
    with approval polling ignores the message and reports "Connection
    failed: Unknown connection error", while the earlier variant takes
    it for the approval-pending signal and reports nothing. *)
Theorem plain_object_message_ignored
    (API Uris WState : Type) (connector : DAppConnectorAPI)
    (r : Replies API Uris WState) (err : Thrown) (msg : string)
    (sR : Reactive.ProviderState API Uris WState)
    (sL : Legacy.ProviderState API Uris WState) :
  enable r = Rejected err ->
  instanceofError err = false ->
  message err = Some msg ->
  includes "enable() first" msg = true ->
  reason err = None ->
  code err = CodeUndefined ->
  Reactive.error
    (execState (Reactive._establishConnection connector false r) sR)
    = Some "Connection failed: Unknown connection error" /\
  Legacy.error
    (execState (Legacy._establishConnection connector false r) sL)
    = None.
Proof.
  intros He Hi Hm Hinc Hr Hc.
  assert (Hmsg : orString (Some msg) "Unknown connection error" = msg).
  { destruct msg; [discriminate | reflexivity]. }
  unfold Reactive._establishConnection, Legacy._establishConnection,
    Legacy.establishFailed, Reactive.errorMsg, Legacy.errorMsg.
  rewrite He, Hi, Hm, Hr, Hc. cbn [orString].
  change (orString (Some "") "Unknown connection error")
    with "Unknown connection error".
  fold (orString (Some msg) "Unknown connection error"). rewrite Hmsg.
  unfold isApprovalError at 2. rewrite Hinc.
  split; reflexivity.
Qed.

End ErrorText.

(** * Further properties of the earlier variant *)

Section LegacyFlows.

Variables API Uris WState : Type.
Variable targetWalletName : string.

(** X14: in the earlier variant [_establishConnection] is all or
    nothing: it returns true exactly when it leaves a handle, and then
    the wallet state and the URIs are cached and the error is null;
    when it returns false the handle, the wallet state, the URIs and the
    wallet name are all null. *)
Theorem legacy_establish_all_or_nothing
    (connector : DAppConnectorAPI) (initialCheck : bool)
    (r : Replies API Uris WState)
    (s : Legacy.ProviderState API Uris WState) :
  let result :=
    runState (Legacy._establishConnection connector initialCheck r) s in
  (fst result = true <-> Legacy.walletApi (snd result) <> None) /\
  (fst result = true ->
     Legacy.walletState (snd result) <> None /\
     Legacy.serviceUris (snd result) <> None /\
     Legacy.walletName (snd result) = Some (name connector) /\
     Legacy.error (snd result) = None) /\
  (fst result = false ->
     Legacy.walletApi (snd result) = None /\
     Legacy.walletState (snd result) = None /\
     Legacy.serviceUris (snd result) = None /\
     Legacy.walletName (snd result) = None).
Proof.
  assert (Hfail : forall err,
    let result := runState (Legacy.establishFailed API Uris WState
                              initialCheck err)
                    (execState (Legacy.setError API Uris WState None) s) in
    (fst result = true <-> Legacy.walletApi (snd result) <> None) /\
    (fst result = true ->
       Legacy.walletState (snd result) <> None /\
       Legacy.serviceUris (snd result) <> None /\
       Legacy.walletName (snd result) = Some (name connector) /\
       Legacy.error (snd result) = None) /\
    (fst result = false ->
       Legacy.walletApi (snd result) = None /\
       Legacy.walletState (snd result) = None /\
       Legacy.serviceUris (snd result) = None /\
       Legacy.walletName (snd result) = None)).
  { intros err. unfold Legacy.establishFailed.
    destruct initialCheck,
      (isApprovalError (code err) (Legacy.errorMsg err)); cbn;
      repeat split; try discriminate; intros H; now elim H. }
  unfold Legacy._establishConnection.
  destruct (enable r) as [api | err]; [| apply Hfail].
  destruct (state r) as [ws | e1]; [| apply Hfail].
  destruct (serviceUriConfig r) as [u | e2]; [| apply Hfail].
  cbn. repeat split; try discriminate; auto.
Qed.

(** X15: in the earlier variant a manual connect from a disconnected,
    idle state always returns with [isConnecting] false and the
    intervals untouched; when [enable()] rejects, the error is the
    "Connection failed" message unless the failure is the
    approval-pending signal, which is silent. *)
Theorem legacy_connectWallet_ends_idle
    (window : option Window) (r : Replies API Uris WState)
    (s : Legacy.ProviderState API Uris WState) :
  Legacy.isConnecting s = false -> Legacy.walletApi s = None ->
  let s' := execState (Legacy.connectWallet targetWalletName window r) s in
  Legacy.isConnecting s' = false /\
  Legacy.statusPollIntervalRef s' = Legacy.statusPollIntervalRef s /\
  Legacy.statePollIntervalRef s' = Legacy.statePollIntervalRef s /\
  (forall connector err,
     getConnector window targetWalletName = Some connector ->
     enable r = Rejected err ->
     Legacy.walletApi s' = None /\
     Legacy.error s' =
       if isApprovalError (code err) (Legacy.errorMsg err) then None
       else Some (connectionFailed (Legacy.errorMsg err) (code err))).
Proof.
  intros H1 H2.
  unfold Legacy.connectWallet, Legacy.isConnected,
    Legacy._establishConnection, Legacy.establishFailed.
  cbv [execState]; cbn. rewrite H1, H2; cbn.
  destruct (getConnector window targetWalletName) as [connector |]; cbn.
  - destruct (enable r) as [api | err]; cbn.
    + destruct (state r) as [ws | e1], (serviceUriConfig r) as [u | e2]; cbn;
        try (destruct (isApprovalError (code e1) (Legacy.errorMsg e1)); cbn);
        try (destruct (isApprovalError (code e2) (Legacy.errorMsg e2)); cbn);
        repeat split; discriminate.
    + destruct (isApprovalError (code err) (Legacy.errorMsg err)) eqn:E; cbn;
        repeat split;
        match goal with
        | H : Rejected _ = Rejected _ |- _ => injection H as <-
        end; rewrite E; reflexivity.
  - repeat split; discriminate.
Qed.

End LegacyFlows.

(** * Properties of the navigation bar *)

Section BarText.

Lemma string_app_nil_r (s : string) : s ++ "" = s.
Proof.
  induction s as [| c s IH]; cbn; [reflexivity | now rewrite IH].
Qed.

Lemma string_app_assoc (a b c : string) : (a ++ b) ++ c = a ++ b ++ c.
Proof.
  induction a as [| x a IH]; cbn; [reflexivity | now rewrite IH].
Qed.

Lemma string_length_app (a b : string) :
  String.length (a ++ b) = String.length a + String.length b.
Proof.
  induction a as [| x a IH]; cbn; [reflexivity | now rewrite IH].
Qed.

(** [substring 0 n] keeps the first [n] characters, or all of them. *)
Lemma substring_head_length (s : string) (n : nat) :
  String.length (substring 0 n s) = Nat.min n (String.length s).
Proof.
  revert n. induction s as [| c s IH]; intros [| n]; cbn; auto.
Qed.

Lemma substring_all (s : string) : substring 0 (String.length s) s = s.
Proof.
  induction s as [| c s IH]; cbn; [reflexivity | now rewrite IH].
Qed.

(** A substring that runs to the end of the string. *)
Lemma substring_to_end (s : string) (n m : nat) :
  String.length s <= n + m ->
  substring n m s = substring n (String.length s) s.
Proof.
  revert n m. induction s as [| c s IH]; intros n m H.
  - destruct n, m; reflexivity.
  - destruct n as [| n]; cbn in *.
    + destruct m as [| m]; [lia |]. cbn. f_equal.
      rewrite (IH 0 m) by lia. reflexivity.
    + rewrite (IH n m) by lia.
      rewrite (IH n (S (String.length s))) by lia. reflexivity.
Qed.

Lemma substring_tail_length (s : string) (n : nat) :
  String.length (substring n (String.length s) s) = String.length s - n.
Proof.
  revert n. induction s as [| c s IH]; intros n.
  - destruct n; reflexivity.
  - destruct n as [| n]; cbn.
    + f_equal. rewrite substring_head_length. lia.
    + rewrite (@substring_to_end s n (S (String.length s))) by lia.
      apply IH.
Qed.

(** A string is its first [n] characters followed by the rest. *)
Lemma substring_split (s : string) (n : nat) :
  s = substring 0 n s ++ substring n (String.length s) s.
Proof.
  revert n. induction s as [| c s IH]; intros n.
  - destruct n; reflexivity.
  - destruct n as [| n]; cbn.
    + f_equal. symmetry. apply substring_all.
    + f_equal. rewrite (@substring_to_end s n (S (String.length s))) by lia.
      apply IH.
Qed.

(** Dropping [n] and then [k] characters drops [n + k]. *)
Lemma substring_tail_tail (s : string) (n k : nat) :
  substring (n + k) (String.length s) s =
  substring k (String.length s) (substring n (String.length s) s).
Proof.
  revert n. induction s as [| c s IH]; intros n.
  - destruct n, k; reflexivity.
  - destruct n as [| n]; cbn [Nat.add].
    + now rewrite (substring_all (String c s)).
    + cbn [substring String.length].
      rewrite (@substring_to_end s (n + k) (S (String.length s))) by lia.
      rewrite (@substring_to_end s n (S (String.length s))) by lia.
      rewrite IH.
      set (t := substring n (String.length s) s).
      assert (Ht : String.length t = String.length s - n)
        by apply substring_tail_length.
      rewrite (@substring_to_end t k (String.length s)) by lia.
      rewrite (@substring_to_end t k (S (String.length s))) by lia.
      reflexivity.
Qed.

(** X16: the shortened address of the disconnect button.  A missing or
    empty address gives the empty text; otherwise the text has
    [min 6 n + 3 + min 4 n] characters for an address of [n]
    characters; an address of at least ten characters is shown as its
    first six characters, three dots and its last four, and an address
    of at most four characters is shown twice around the dots. *)
Theorem displayAddress_shape (a : string) :
  Navbar.displayAddress None = "" /\
  Navbar.displayAddress (Some "") = "" /\
  (a <> "" ->
   String.length (Navbar.displayAddress (Some a)) =
     Nat.min 6 (String.length a) + 3 + Nat.min 4 (String.length a)) /\
  (10 <= String.length a ->
   exists first middle last,
     a = first ++ middle ++ last /\
     String.length first = 6 /\ String.length last = 4 /\
     Navbar.displayAddress (Some a) = first ++ "..." ++ last) /\
  (a <> "" -> String.length a <= 4 ->
   Navbar.displayAddress (Some a) = a ++ "..." ++ a).
Proof.
  repeat split.
  - intros Hne. destruct a as [| c a]; [now elim Hne |].
    unfold Navbar.displayAddress.
    rewrite !string_length_app, substring_head_length, substring_tail_length.
    cbn [String.length append]. lia.
  - intros Hlen. destruct a as [| c a]; [cbn in Hlen; lia |].
    set (s := String c a) in *.
    set (tail := substring 6 (String.length s) s).
    assert (Htail : String.length tail = String.length s - 6)
      by apply substring_tail_length.
    exists (substring 0 6 s),
      (substring 0 (String.length s - 10) tail),
      (substring (String.length s - 4) (String.length s) s).
    assert (Hlast : substring (String.length s - 4) (String.length s) s =
                    substring (String.length s - 10) (String.length tail) tail).
    { replace (String.length s - 4) with (6 + (String.length s - 10)) by lia.
      rewrite substring_tail_tail. fold tail.
      apply substring_to_end. lia. }
    repeat split.
    + rewrite (substring_split s 6) at 1. fold tail. f_equal.
      rewrite Hlast. apply substring_split.
    + rewrite substring_head_length. lia.
    + rewrite Hlast, substring_tail_length. lia.
  - intros Hne Hlen. destruct a as [| c a]; [now elim Hne |].
    unfold Navbar.displayAddress. cbv beta iota zeta.
    remember (String c a) as s eqn:Es. clear Es Hne.
    replace (String.length s - 4) with 0 by lia.
    assert (H6 : substring 0 6 s = s).
    { rewrite (substring_split s 6) at 2.
      assert (E : substring 6 (String.length s) s = "").
      { pose proof (substring_tail_length s 6) as L.
        destruct (substring 6 (String.length s) s); [reflexivity |].
        cbn in L. lia. }
      rewrite E, string_app_nil_r. reflexivity. }
    rewrite H6, substring_all. reflexivity.
Qed.

(** Whether a string contains a colon, character by character. *)
Lemma includes_colon_cons (c : ascii) (s : string) :
  includes ":" (String c s) = Ascii.eqb c ":" || includes ":" s.
Proof.
  cbn [includes String.prefix].
  destruct (Ascii.ascii_dec ":" c) as [<- | Hne].
  - now destruct s.
  - destruct (Ascii.eqb_spec c ":") as [-> | _]; [now elim Hne | reflexivity].
Qed.

Lemma includes_colon_app (a b : string) :
  includes ":" (a ++ b) = includes ":" a || includes ":" b.
Proof.
  induction a as [| c a IH].
  - cbn [append]. destruct b; reflexivity.
  - cbn [append]. rewrite !includes_colon_cons, IH. apply orb_assoc.
Qed.

(** Splitting a string without colon gives the string itself. *)
Lemma split_no_colon (s : string) :
  includes ":" s = false -> Navbar.split ":" s = [s].
Proof.
  induction s as [| c s IH]; [reflexivity |].
  rewrite includes_colon_cons. intros H.
  apply orb_false_iff in H as [Hc Hs].
  cbn [Navbar.split]. rewrite Hc, (IH Hs). reflexivity.
Qed.

(** The first piece of a split ends at the first colon. *)
Lemma split_at_first_colon (a b : string) :
  includes ":" a = false ->
  Navbar.split ":" (a ++ String ":" b) = a :: Navbar.split ":" b.
Proof.
  induction a as [| c a IH].
  - intros _. reflexivity.
  - rewrite includes_colon_cons. intros H.
    apply orb_false_iff in H as [Hc Ha].
    cbn [append Navbar.split]. rewrite Hc, (IH Ha). reflexivity.
Qed.

(** X17: the error text of the bar.  An error without colon is shown as
    it is.  A "Connection failed" error whose message has no colon is
    shown as the trimmed message, and when the failure carried a code
    the text ends with " (Code": the code itself and the closing
    bracket are cut off at the colon that precedes them. *)
Theorem simplifiedError_cuts_at_colons (error msg : string) (c : ErrorCode) :
  (includes ":" error = false -> Navbar.simplifiedError error = error) /\
  (includes ":" msg = false ->
   Navbar.simplifiedError (connectionFailed msg c) =
     Navbar.trim (msg ++ (if codeTruthy c then " (Code" else ""))).
Proof.
  split.
  - intros H. unfold Navbar.simplifiedError.
    rewrite (split_no_colon _ H). reflexivity.
  - intros H. unfold Navbar.simplifiedError, connectionFailed.
    change ("Connection failed: " ++
            msg ++ (if codeTruthy c then " (Code: " ++ codeToString c ++ ")"
                    else ""))
      with ("Connection failed" ++
            String ":" (String " " (msg ++
              (if codeTruthy c then " (Code: " ++ codeToString c ++ ")"
               else "")))).
    rewrite split_at_first_colon by reflexivity.
    cbn [nth_error].
    destruct (codeTruthy c).
    + change (String " " (msg ++ " (Code: " ++ codeToString c ++ ")"))
        with (String " " (msg ++ " (Code" ++
                String ":" (String " " (codeToString c ++ ")")))).
      rewrite <- string_app_assoc.
      change (String " " ((msg ++ " (Code") ++
                String ":" (String " " (codeToString c ++ ")"))))
        with ((String " " (msg ++ " (Code")) ++
                String ":" (String " " (codeToString c ++ ")"))).
      rewrite split_at_first_colon.
      * reflexivity.
      * rewrite includes_colon_cons, includes_colon_app, H. reflexivity.
    + rewrite string_app_nil_r, split_no_colon.
      * reflexivity.
      * rewrite includes_colon_cons, H. reflexivity.
Qed.

End BarText.

Section BarState.

Variables API Uris WState : Type.
Variable address : WState -> string.
Variable targetWalletName : string.

Local Abbreviation State := (Reactive.ProviderState API Uris WState).

(** X18: the elements of the bar agree on loading.  While
    [isConnecting] or [isCheckingStatus] is true, no error text is
    rendered, the indicator is blue and pulsing, and a rendered connect
    button is disabled; otherwise the indicator is still, its title is
    "Connected" or "Disconnected" according to [isConnected], and a
    rendered connect button is enabled. *)
Theorem bar_agrees_on_loading (s : State) :
  let ind := Navbar.indicator s in
  (Navbar.isLoadingOverall s = true ->
     Navbar.shownError s = None /\
     Navbar.animation ind = "pulse 1.5s infinite ease-in-out" /\
     Navbar.color ind = "#60a5fa" /\
     forall disabled label,
       Navbar.button address s = Navbar.ConnectButton disabled label ->
       disabled = true) /\
  (Navbar.isLoadingOverall s = false ->
     Navbar.animation ind = "none" /\
     Navbar.title ind =
       (if Reactive.isConnected s then "Connected" else "Disconnected") /\
     forall disabled label,
       Navbar.button address s = Navbar.ConnectButton disabled label ->
       disabled = false).
Proof.
  unfold Navbar.isLoadingOverall, Navbar.shownError, Navbar.indicator,
    Navbar.button, Navbar.ConnectionIndicator, Navbar.isLoadingOverall.
  cbn.
  destruct (Reactive.isConnecting s), (Reactive.isCheckingStatus s),
    (Reactive.isConnected s), (Reactive.walletState s),
    (Reactive.error s) as [[| ch rest] |]; cbn;
    split; intros H; try discriminate; repeat split;
    intros d l E; try discriminate; now injection E as <- _.
Qed.

(** X19: the state left by a failed detail fetch is a dead end for the
    bar.  With a handle but no cached wallet state the bar renders the
    connect button, not the disconnect button, and a click on it changes
    nothing, whatever the wallet would answer. *)
Theorem bar_click_dead_without_walletState
    (window : option Window) (r : Replies API Uris WState)
    (s : State) (api : API) :
  Reactive.walletApi s = Some api ->
  Reactive.walletState s = None ->
  (exists disabled label,
     Navbar.button address s = Navbar.ConnectButton disabled label) /\
  execState (Navbar.click address targetWalletName window r) s = s.
Proof.
  intros Hapi Hws.
  unfold Navbar.click, Navbar.button, Reactive.connectWallet,
    Reactive.isConnected.
  cbv [execState]; cbn. rewrite Hapi, Hws; cbn. split.
  - eauto.
  - destruct (Reactive.isConnecting s) eqn:E1,
      (Reactive.isCheckingStatus s) eqn:E2; cbn;
      rewrite ?E1, ?Hapi; reflexivity.
Qed.

(** X20: with a handle and a cached wallet state the bar renders the
    disconnect button, labelled with the shortened address, and a click
    on it resets the component: handle, wallet state, URIs, name, error
    and info message are null, no loading flag is set and no interval
    is armed. *)
Theorem bar_click_disconnects
    (window : option Window) (r : Replies API Uris WState)
    (s : State) (api : API) (ws : WState) :
  Reactive.walletApi s = Some api ->
  Reactive.walletState s = Some ws ->
  let s' := execState (Navbar.click address targetWalletName window r) s in
  Navbar.button address s =
    Navbar.DisconnectButton
      ("Disconnect " ++ Navbar.displayAddress (Some (address ws)) ++ " ")
      ("Disconnect wallet: " ++ address ws) /\
  s' = execState Reactive.disconnectWallet s /\
  Reactive.isConnected s' = false /\ Reactive.walletState s' = None /\
  Reactive.timersCleared s' /\
  exists label, Navbar.button address s' = Navbar.ConnectButton false label.
Proof.
  intros Hapi Hws.
  unfold Navbar.click, Navbar.button, Reactive.isConnected,
    Reactive.timersCleared.
  cbv [execState]; cbn. rewrite Hapi, Hws; cbn.
  repeat split. eauto.
Qed.

End BarState.

(** * Invariants of the earlier variant *)

Section LegacyInvariants.

Variables API Uris WState : Type.
Variable address : WState -> string.
Variable targetWalletName : string.


End LegacyInvariants.

(** * Further concrete runs *)

Section MoreRuns.

Import Scenario.

(** On a page without [window.midnight] the connect button reports the
    missing connector. *)
Lemma connectWallet_connector_absent_run :
  let s' := execState (Reactive.connectWallet "mnLace" None allResolve) idle in
  Reactive.error s' = Some "Wallet connector 'mnLace' not found." /\
  Reactive.isConnecting s' = false.
Proof.
  destruct (@connectWallet_connector_absent string string string "mnLace"
              None allResolve idle eq_refl eq_refl eq_refl)
    as (He & Hc & _).
  exact (conj He Hc).
Defined.

(** A successful manual connect followed by the polling effect. *)
Lemma connect_then_effect_arms_polls_run :
  let s' :=
    execState (Reactive.connectWallet "mnLace" window allResolve ;;
               Reactive.backgroundPollingEffect) idle in
  Reactive.walletApi s' = Some "api" /\
  Reactive.walletState s' = Some "addr1" /\
  Reactive.statusPollIntervalRef s' = Some tt /\
  Reactive.approvalPollIntervalRef s' = None.
Proof.
  destruct (@connect_then_effect_arms_polls string string string "mnLace"
              window mnLace allResolve idle "api" "addr1" "uris"
              eq_refl eq_refl eq_refl eq_refl eq_refl eq_refl)
    as (H1 & H2 & _ & _ & _ & _ & _ & _ & H3 & _ & H4).
  exact (conj H1 (conj H2 (conj H3 H4))).
Defined.

(** Thirty unanswered polls: still waiting, no time-out yet. *)
Lemma approval_wait_keeps_waiting_run :
  let s' :=
    execState (Reactive.connectWallet "mnLace" window enablePending ;;
               Reactive.approvalPolling (repeat notEnabled 30)) idle in
  Reactive.approvalPollIntervalRef s' = Some mnLace /\
  Reactive.attempts s' = 30%Z /\
  Reactive.isConnecting s' = true /\ Reactive.error s' = None.
Proof.
  assert (Hall : Forall (fun r : R => isEnabled r = Resolved false)
                   (repeat notEnabled 30))
    by (cbn; repeat constructor).
  destruct (@approval_wait_keeps_waiting string string string "mnLace"
              window mnLace enablePending (repeat notEnabled 30) idle
              approvalPending eq_refl eq_refl eq_refl eq_refl eq_refl
              eq_refl Hall)
    as (H1 & H2 & H3 & H4 & _).
  - cbn. unfold maxAttempts. cbn. lia.
  - exact (conj H1 (conj H2 (conj H3 H4))).
Defined.

(** The user approves after twenty-nine unanswered polls. *)
Lemma approval_granted_connects_run :
  let s' :=
    execState (Reactive.connectWallet "mnLace" window enablePending ;;
               Reactive.approvalPolling (repeat notEnabled 29 ++ [allResolve]))
      idle in
  Reactive.walletApi s' = Some "api" /\
  Reactive.walletState s' = Some "addr1" /\
  Reactive.error s' = None /\ Reactive.isConnecting s' = false /\
  Reactive.timersCleared s'.
Proof.
  assert (Hall : Forall (fun r : R => isEnabled r = Resolved false)
                   (repeat notEnabled 29))
    by (cbn; repeat constructor).
  destruct (@approval_granted_connects string string string "mnLace"
              window mnLace enablePending allResolve (repeat notEnabled 29)
              idle approvalPending "api" "addr1" "uris"
              eq_refl eq_refl eq_refl eq_refl eq_refl eq_refl Hall)
    as (H1 & H2 & _ & _ & H3 & _ & H4 & H5); try reflexivity.
  exact (conj H1 (conj H2 (conj H3 (conj H4 H5)))).
Defined.



(** A state poll that sees the same address. *)
Lemma statePoll_same_address_keeps_state_run :
  execState
    (Reactive.statePollCallback address
       {| Reactive.currentWalletApi := "api";
          Reactive.cachedWalletState := Some "addr1" |} allResolve)
    connected = connected.
Proof.
  exact (@statePoll_same_address_keeps_state string string string address
           {| Reactive.currentWalletApi := "api";
              Reactive.cachedWalletState := Some "addr1" |}
           allResolve connected "addr1" "addr1" eq_refl eq_refl eq_refl).
Defined.

(** A status poll of a wallet that is still enabled. *)
Lemma statusPoll_disconnects_iff_run :
  execState (Reactive.statusPollCallback "mnLace" window allResolve) connected
    = connected.
Proof.
  destruct (@statusPoll_disconnects_iff string string string "mnLace"
              window allResolve connected "api" eq_refl) as [_ H].
  apply H; [discriminate | reflexivity].
Defined.


Lemma reachable_polls_paired_run :
  Reactive.statusPollIntervalRef connected = None <->
  Reactive.statePollIntervalRef connected = None.
Proof.
  exact (@reachable_polls_paired string string string address "mnLace"
           connected connected_reachable).
Defined.


(** A wallet that rejects with a plain object. *)
Lemma plain_object_message_ignored_run :
  let r : R :=
    {| isEnabled := Resolved false;
       enable := Rejected {| instanceofError := false;
                             message := Some "call enable() first";
                             reason := None; code := CodeUndefined |};
       state := Resolved "addr1"; serviceUriConfig := Resolved "uris" |} in
  Reactive.error
    (execState (Reactive._establishConnection mnLace false r) idle)
    = Some "Connection failed: Unknown connection error" /\
  Legacy.error
    (execState (Legacy._establishConnection mnLace false r) legacyIdle)
    = None.
Proof.
  exact (@plain_object_message_ignored string string string mnLace
           {| isEnabled := Resolved false;
              enable := Rejected {| instanceofError := false;
                                    message := Some "call enable() first";
                                    reason := None; code := CodeUndefined |};
              state := Resolved "addr1"; serviceUriConfig := Resolved "uris" |}
           _ "call enable() first" idle legacyIdle
           eq_refl eq_refl eq_refl eq_refl eq_refl eq_refl).
Defined.

(** The earlier variant after a rejected [enable()]. *)
Lemma legacy_connectWallet_ends_idle_run :
  let s' :=
    execState (Legacy.connectWallet "mnLace" window enableRejected)
      legacyIdle in
  Legacy.isConnecting s' = false /\
  Legacy.error s' = Some "Connection failed: User rejected (Code: -1)".
Proof.
  destruct (@legacy_connectWallet_ends_idle string string string "mnLace"
              window enableRejected legacyIdle eq_refl eq_refl)
    as (H1 & _ & _ & H2).
  destruct (H2 mnLace userRejected eq_refl eq_refl) as [_ He].
  exact (conj H1 He).
Defined.


(** The bar after a manual connect whose detail fetch failed. *)
Lemma bar_click_dead_without_walletState_run :
  let partial :=
    execState (Reactive.connectWallet "mnLace" window detailsRejected) idle in
  execState (Navbar.click address "mnLace" window allResolve) partial = partial.
Proof.
  destruct (@bar_click_dead_without_walletState string string string address
              "mnLace" window allResolve
              (execState (Reactive.connectWallet "mnLace" window detailsRejected)
                 idle)
              "api" eq_refl eq_refl) as [_ H].
  exact H.
Defined.

(** The bar of the connected component. *)
Lemma bar_click_disconnects_run :
  let s' := execState (Navbar.click address "mnLace" window allResolve) connected in
  Navbar.button address connected =
    Navbar.DisconnectButton "Disconnect addr1...ddr1 "
      "Disconnect wallet: addr1" /\
  Reactive.isConnected s' = false /\ Reactive.timersCleared s'.
Proof.
  destruct (@bar_click_disconnects string string string address "mnLace"
              window allResolve connected "api" "addr1" eq_refl eq_refl)
    as (H1 & _ & H2 & _ & H3 & _).
  exact (conj H1 (conj H2 H3)).
Defined.

End MoreRuns.
